(** * Demo backend: sessions, command dispatch, transcripts and ask-ai

    A shallow embedding of [backend/models.py], [backend/services.py] and
    the [ask_ai] view of [backend/views.py], with the properties of the
    design document proved against it.

    Conventions of the embedding:
    - a Python [str] is a [string] whose characters are the code points
      below 256; [lower] and [strip] follow Python there;
    - the tables of the store are a [gmap] from primary key to the other
      columns (sessions) and the list of rows in insertion order (command
      log);
    - an exception is a value of [exn]; a call that may raise returns
      [result];
    - what the code reads from outside (clock, configuration, the chat
      completion service, fresh identifiers) comes in as an argument. *)

From Stdlib Require Import ZArith Ascii String List Sorted Permutation Lia.
From Stdlib Require Import DecimalString.
From stdpp Require Import base option list sorting gmap strings.

Local Open Scope Z_scope.

(** ** Python strings *)

Module Py.

Definition ord (c : ascii) : N := N_of_ascii c.

(** [ch.isspace()] on code points below 256. *)
Definition isspace (c : ascii) : bool :=
  let n := ord c in
  ((9 <=? n) && (n <=? 13) || (28 <=? n) && (n <=? 32)
   || (n =? 133) || (n =? 160))%N.

(** [ch.lower()] on code points below 256: A-Z and the upper-case letters
    of the Latin-1 block move up by 32. *)
Definition lower_char (c : ascii) : ascii :=
  let n := ord c in
  if ((65 <=? n) && (n <=? 90) || (192 <=? n) && (n <=? 214)
      || (216 <=? n) && (n <=? 222))%N
  then ascii_of_N (n + 32) else c.

Fixpoint lower (s : string) : string :=
  match s with
  | EmptyString => EmptyString
  | String c t => String (lower_char c) (lower t)
  end.

Definition len (s : string) : nat := String.length s.

(** Truth value of a string: [if s:]. *)
Definition truthy (s : string) : bool :=
  match s with EmptyString => false | String _ _ => true end.

Fixpoint lstrip (s : string) : string :=
  match s with
  | EmptyString => EmptyString
  | String c t => if isspace c then lstrip t else s
  end.

Fixpoint rstrip (s : string) : string :=
  match s with
  | EmptyString => EmptyString
  | String c t =>
      match rstrip t with
      | EmptyString => if isspace c then EmptyString else String c EmptyString
      | r => String c r
      end
  end.

(** [s.strip()] *)
Definition strip (s : string) : string := rstrip (lstrip s).

(** [s.startswith(p)] *)
Fixpoint startswith (p s : string) : bool :=
  match p, s with
  | EmptyString, _ => true
  | String a p', String b s' => if ascii_dec a b then startswith p' s' else false
  | String _ _, EmptyString => false
  end.

(** [p in s] *)
Fixpoint contains (p s : string) : bool :=
  startswith p s ||
  match s with
  | EmptyString => false
  | String _ t => contains p t
  end.

(** [s[n:]] *)
Fixpoint slice_from (n : nat) (s : string) : string :=
  match n, s with
  | O, _ => s
  | S n', String _ t => slice_from n' t
  | S _, EmptyString => EmptyString
  end.

(** [s[:n]] *)
Fixpoint slice_to (n : nat) (s : string) : string :=
  match n, s with
  | S n', String c t => String c (slice_to n' t)
  | _, _ => EmptyString
  end.

End Py.

(** ** Time *)

(** A [datetime] is a number of microseconds since the epoch (UTC). *)
Definition datetime := Z.

Definition digit (n : Z) : ascii := ascii_of_N (48 + Z.to_N n).

Definition two_digits (n : Z) : string :=
  String (digit (n / 10)) (String (digit (n mod 10)) EmptyString).

(** [dt.strftime('%H:%M:%S')] *)
Definition strftime_HMS (dt : datetime) : string :=
  let secs := (dt / 1000000) mod 86400 in
  two_digits (secs / 3600) +:+ ":" +:+ two_digits ((secs mod 3600) / 60)
    +:+ ":" +:+ two_digits (secs mod 60).

(** ** Exceptions *)

(** The exceptions of the store: a session-id string that is not a UUID,
    a lookup that finds no row, a primary key that is taken. *)
Inductive exn :=
| ValidationError
| DoesNotExist
| IntegrityError.

Inductive result (A : Type) :=
| Ok (a : A)
| Raise (e : exn).
Arguments Ok {A} a.
Arguments Raise {A} e.

(** What [openai.ChatCompletion.create] raises.  The four [openai.error]
    classes that [ask_ai] names are siblings; [OtherError] stands for
    every other [Exception] (connection failure, timeout, a reply without
    content, ...).  Each carries [str(e)]. *)
Inductive openai_error :=
| RateLimitError (msg : string)
| InvalidRequestError (msg : string)
| AuthenticationError (msg : string)
| APIError (msg : string)
| OtherError (msg : string).

Definition str (e : openai_error) : string :=
  match e with
  | RateLimitError m | InvalidRequestError m | AuthenticationError m
  | APIError m | OtherError m => m
  end.

(** The outcome of a completion call: the content of the first choice, or
    an exception. *)
Inductive completion :=
| Completion (content : string)
| Raises (e : openai_error).

(** ** models.py *)

Definition uuid := N.

(** [UUIDField.to_python]: the key a session-id string denotes, if any. *)
Class UUIDField := to_python : string -> option uuid.

Record DemoSession := {
  session_id : uuid;
  started_at : datetime;
  ended_at : option datetime;
  is_active : bool
}.

(** The columns of a session row other than its primary key. *)
Record session_row := {
  row_started_at : datetime;
  row_ended_at : option datetime;
  row_is_active : bool
}.

Record CommandLog := {
  log_id : Z;
  session : uuid;
  timestamp : datetime;
  command_text : string;
  response : string;
  is_ai_response : bool;
  processing_time_ms : option Z
}.

(** A request sent to [openai.ChatCompletion.create] (the temperature is
    the constant 0.7 at both call sites and is left out). *)
Record chat_request := {
  model : string;
  messages : list (string * string);
  max_tokens : Z
}.

(** The store, and the requests that went out to the completion service. *)
Record world := {
  sessions : gmap uuid session_row;
  command_logs : list CommandLog;
  outbox : list chat_request
}.

Definition empty_world : world :=
  {| sessions := ∅; command_logs := []; outbox := [] |}.

(** What one request reads from outside the store: the API key of the
    Django settings and the one of the process environment, the completion
    service, [time.time()] at the start and at the end of a dispatch (in
    milliseconds), and [timezone.now()] in the rule-based responder and at
    the insertion of the log row. *)
Record environment := {
  settings_OPENAI_API_KEY : option string;
  environ_OPENAI_API_KEY : option string;
  ChatCompletion_create : chat_request -> completion;
  time_start : Z;
  time_end : Z;
  now_responder : datetime;
  now_auto_add : datetime
}.

Definition to_row (s : DemoSession) : session_row :=
  {| row_started_at := started_at s; row_ended_at := ended_at s;
     row_is_active := is_active s |}.

Definition of_row (u : uuid) (r : session_row) : DemoSession :=
  {| session_id := u; started_at := row_started_at r;
     ended_at := row_ended_at r; is_active := row_is_active r |}.

(** [self.save()] *)
Definition save (s : DemoSession) (w : world) : world :=
  {| sessions := <[session_id s := to_row s]> (sessions w);
     command_logs := command_logs w; outbox := outbox w |}.

(** A call of [openai.ChatCompletion.create] leaves the process: the
    request joins the outbox, the store is untouched. *)
Definition sent (req : chat_request) (w : world) : world :=
  {| sessions := sessions w; command_logs := command_logs w;
     outbox := outbox w ++ [req] |}.

(** [if x:] on an optional string. *)
Definition configured (k : option string) : option string :=
  match k with
  | Some k' => if Py.truthy k' then Some k' else None
  | None => None
  end.

Module DemoSession_objects.

(** [DemoSession.objects.get(session_id=...)] *)
Definition get `{UUIDField} (w : world) (sid : string) : result DemoSession :=
  match to_python sid with
  | None => Raise ValidationError
  | Some u =>
      match sessions w !! u with
      | Some r => Ok (of_row u r)
      | None => Raise DoesNotExist
      end
  end.

(** [DemoSession.objects.create()]: [u] is the value [uuid.uuid4] drew,
    [now] the clock at insertion. *)
Definition create (u : uuid) (now : datetime) (w : world)
  : result DemoSession * world :=
  match sessions w !! u with
  | Some _ => (Raise IntegrityError, w)
  | None =>
      let s := {| session_id := u; started_at := now; ended_at := None;
                  is_active := true |} in
      (Ok s, save s w)
  end.

End DemoSession_objects.

Module DemoSession_methods.

(** [DemoSession.end_session] *)
Definition end_session (now : datetime) (self : DemoSession) (w : world)
  : DemoSession * world :=
  let self' := {| session_id := session_id self;
                  started_at := started_at self;
                  ended_at := Some now;
                  is_active := false |} in
  (self', save self' w).

End DemoSession_methods.

Module CommandLog_objects.

(** [CommandLog.objects.create(...)]: the row gets the next id and the
    clock's reading as timestamp. *)
Definition create (now : datetime) (s : DemoSession) (text resp : string)
    (is_ai : bool) (ms : option Z) (w : world) : world :=
  let row := {| log_id := Z.of_nat (length (command_logs w)) + 1;
                session := session_id s; timestamp := now;
                command_text := text; response := resp;
                is_ai_response := is_ai; processing_time_ms := ms |} in
  {| sessions := sessions w; command_logs := command_logs w ++ [row];
     outbox := outbox w |}.

Fixpoint insert_by_timestamp (c : CommandLog) (l : list CommandLog)
  : list CommandLog :=
  match l with
  | [] => [c]
  | d :: l' =>
      if timestamp c <=? timestamp d then c :: l
      else d :: insert_by_timestamp c l'
  end.

(** [ORDER BY timestamp ASC] ([Meta.ordering]); rows with equal
    timestamps keep their insertion order. *)
Definition order_by_timestamp (l : list CommandLog) : list CommandLog :=
  foldr insert_by_timestamp [] l.

Definition of_session (u : uuid) (c : CommandLog) : bool :=
  bool_decide (session c = u).

(** [session.commands.all()] *)
Definition commands_all (s : DemoSession) (w : world) : list CommandLog :=
  order_by_timestamp (List.filter (of_session (session_id s)) (command_logs w)).

End CommandLog_objects.

(** ** services.py *)

Definition HTTP_200_OK : Z := 200.
Definition HTTP_400_BAD_REQUEST : Z := 400.
Definition HTTP_404_NOT_FOUND : Z := 404.
Definition HTTP_429_TOO_MANY_REQUESTS : Z := 429.
Definition HTTP_500_INTERNAL_SERVER_ERROR : Z := 500.
Definition HTTP_503_SERVICE_UNAVAILABLE : Z := 503.

(** The dictionary [process_command] returns: [{"error": ...}] or
    [{"response": ...}]. *)
Inductive payload :=
| ErrorBody (error : string)
| ResponseBody (resp : string).

Module SessionService.

Definition create_session (u : uuid) (now : datetime) (w : world)
  : result DemoSession * world :=
  DemoSession_objects.create u now w.

Definition get_session `{UUIDField} (w : world) (sid : string)
  : result (option DemoSession) :=
  match DemoSession_objects.get w sid with
  | Ok s => Ok (Some s)
  | Raise DoesNotExist => Ok None
  | Raise e => Raise e
  end.

Definition end_session `{UUIDField} (now : datetime) (w : world) (sid : string)
  : result bool * world :=
  match get_session w sid with
  | Raise e => (Raise e, w)
  | Ok (Some s) =>
      if is_active s
      then (Ok true, snd (DemoSession_methods.end_session now s w))
      else (Ok false, w)
  | Ok None => (Ok false, w)
  end.

End SessionService.

Module CommandService.

Definition greeting : string := "Hello! How can I assist you today?".
Definition time_prefix : string := "The current time is ".
Definition help_text : string :=
  "I can help you with basic commands. Try saying 'hello', 'time', or prefix with 'ai:' for AI responses.".
Definition fallback_text : string :=
  "I'm not sure how to respond to that yet. Try saying 'help' for available commands.".

(** The keyword arguments of the completion call of [_handle_ai_command]. *)
Definition completion_request (prompt : string) : chat_request :=
  {| model := "gpt-3.5-turbo";
     messages := [("user", prompt)];
     max_tokens := 150 |}.

Definition _handle_ai_command (env : environment) (w : world) (command : string)
  : (string * bool) * world :=
  match configured (settings_OPENAI_API_KEY env) with
  | None => (("AI service not configured", false), w)
  | Some _ =>
      let prompt := Py.strip (Py.slice_from 3 command) in
      let req := completion_request prompt in
      let w' := sent req w in
      match ChatCompletion_create env req with
      | Completion content => ((Py.strip content, true), w')
      | Raises e => (("AI service error: " +:+ str e, false), w')
      end
  end.

Definition _handle_dummy_command (env : environment) (command : string)
  : string * bool :=
  let command_lower := Py.lower command in
  if Py.contains "hello" command_lower then (greeting, false)
  else if Py.contains "time" command_lower then
    let current_time := strftime_HMS (now_responder env) in
    (time_prefix +:+ current_time, false)
  else if Py.contains "help" command_lower then (help_text, false)
  else (fallback_text, false).

Definition process_command `{UUIDField} (env : environment) (w : world)
    (sid command : string) : (payload * Z) * world :=
  let start_time := time_start env in
  match SessionService.get_session w sid with
  | Raise _ => ((ErrorBody "Internal server error", 500), w)
  | Ok None => ((ErrorBody "Session not found", 404), w)
  | Ok (Some s) =>
      if negb (is_active s) then ((ErrorBody "Session has ended", 400), w)
      else if negb (Py.truthy command) || negb (Py.truthy (Py.strip command))
      then ((ErrorBody "Command cannot be empty", 400), w)
      else
        let '((resp, is_ai), w1) :=
          if Py.startswith "ai:" (Py.lower command)
          then _handle_ai_command env w command
          else (_handle_dummy_command env command, w) in
        let processing_time := time_end env - start_time in
        let w2 := CommandLog_objects.create (now_auto_add env) s
                    (Py.strip command) resp is_ai (Some processing_time) w1 in
        ((ResponseBody resp, 200), w2)
  end.

End CommandService.

Record transcript_entry := {
  entry_timestamp : datetime;
  entry_command : string;
  entry_response : string;
  entry_is_ai_response : bool;
  entry_processing_time_ms : option Z
}.

Record transcript_data := {
  tr_session_id : uuid;
  tr_started_at : datetime;
  tr_ended_at : option datetime;
  tr_is_active : bool;
  tr_total_commands : Z;
  tr_commands : list transcript_entry
}.

Inductive transcript_payload :=
| TranscriptError (error : string)
| Transcript (data : transcript_data).

Module TranscriptService.

Definition entry_of (cmd : CommandLog) : transcript_entry :=
  {| entry_timestamp := timestamp cmd;
     entry_command := command_text cmd;
     entry_response := response cmd;
     entry_is_ai_response := is_ai_response cmd;
     entry_processing_time_ms := processing_time_ms cmd |}.

Definition get_session_transcript `{UUIDField} (w : world) (sid : string)
  : (transcript_payload * Z) * world :=
  match SessionService.get_session w sid with
  | Raise _ => ((TranscriptError "Internal server error", 500), w)
  | Ok None => ((TranscriptError "Session not found", 404), w)
  | Ok (Some s) =>
      let commands := CommandLog_objects.commands_all s w in
      let transcript_data :=
        {| tr_session_id := session_id s;
           tr_started_at := started_at s;
           tr_ended_at := ended_at s;
           tr_is_active := is_active s;
           tr_total_commands := Z.of_nat (length commands);
           tr_commands := map entry_of commands |} in
      ((Transcript transcript_data, 200), w)
  end.

End TranscriptService.

(** ** views.py: ask_ai *)

(** [request.data]: each key may be absent. *)
Record request_data := {
  data_user_input : option string;
  data_screen_text : option string;
  data_session_id : option string
}.

(** The dictionary of an [ask_ai] response: each key may be absent. *)
Record response_data := {
  body_response : option string;
  body_error : option string;
  body_user_input : option string;
  body_screen_context_length : option Z
}.

Record Response := {
  data : response_data;
  status_code : Z
}.

Module Views.

Definition dquote : string := String (ascii_of_N 34) EmptyString.

Definition no_screen_content : string := "No screen content available".

Definition system_content : string :=
  "You are a helpful, UI-aware AI assistant that guides users through software demos. You can see what's on their screen and provide contextual help.".

Definition prompt_head : string :=
"
You are an intelligent AI demo agent helping users interact with a SaaS product UI. You can see what's currently displayed on their screen and should provide helpful, contextual guidance.

CURRENT SCREEN CONTENT:
---
".

Definition prompt_middle : string :=
"
---

USER QUESTION/COMMAND: ".

Definition prompt_tail : string :=
"

INSTRUCTIONS:
1. Analyze the visible screen content to understand the current context
2. Provide a helpful, specific response that guides the user
3. If the user asks about features not visible, suggest how to navigate to them
4. Be conversational but professional
5. If you can identify specific UI elements, mention them by name
6. Keep responses concise but informative

RESPONSE FORMAT:
Provide a natural, helpful response that addresses the user's question based on what's visible on screen.
".

Definition build_prompt (limited_screen_text user_input : string) : string :=
  prompt_head +:+ limited_screen_text +:+ prompt_middle
    +:+ dquote +:+ user_input +:+ dquote +:+ prompt_tail.

(** The keyword arguments of the completion call of [ask_ai]. *)
Definition completion_request (prompt : string) : chat_request :=
  {| model := "gpt-3.5-turbo";
     messages := [("system", system_content); ("user", prompt)];
     max_tokens := 300 |}.

Definition error_only (msg : string) (st : Z) : Response :=
  {| data := {| body_response := None; body_error := Some msg;
                body_user_input := None;
                body_screen_context_length := None |};
     status_code := st |}.

Definition fallback (msg err : string) (st : Z) : Response :=
  {| data := {| body_response := Some msg; body_error := Some err;
                body_user_input := None;
                body_screen_context_length := None |};
     status_code := st |}.

Definition answer (msg user_input : string) (n : nat) : Response :=
  {| data := {| body_response := Some msg; body_error := None;
                body_user_input := Some user_input;
                body_screen_context_length := Some (Z.of_nat n) |};
     status_code := HTTP_200_OK |}.

Definition empty_reply_text : string :=
  "I'm sorry, I couldn't generate a response. Please try asking your question again.".
Definition rate_limit_text : string :=
  "I'm receiving too many requests right now. Please wait a moment and try again.".
Definition invalid_request_text : string :=
  "I'm having trouble processing your request. Please try rephrasing your question.".
Definition auth_failed_text : string :=
  "AI service is currently unavailable. Please contact support.".
Definition api_error_text : string :=
  "I'm experiencing technical difficulties. Please try again in a moment.".
Definition unexpected_text : string :=
  "I'm sorry, something went wrong on my end. Please try again or contact support if the problem persists.".
Definition not_configured_text : string :=
  "AI service not configured. Please contact support.".

Definition ask_ai `{UUIDField} (env : environment) (w : world)
    (request : request_data) : Response * world :=
  let user_input := default "" (data_user_input request) in
  let screen_text := default "" (data_screen_text request) in
  let session_id := default "" (data_session_id request) in
  if negb (Py.truthy (Py.strip user_input))
  then (error_only "User input is required" HTTP_400_BAD_REQUEST, w)
  else
    match configured (environ_OPENAI_API_KEY env) with
    | None => (error_only not_configured_text HTTP_500_INTERNAL_SERVER_ERROR, w)
    | Some _ =>
        let limited_screen_text :=
          if Py.truthy screen_text then Py.slice_to 1500 screen_text
          else no_screen_content in
        let prompt := build_prompt limited_screen_text user_input in
        let req := completion_request prompt in
        let w1 := sent req w in
        match ChatCompletion_create env req with
        | Completion content =>
            let ai_response := Py.strip content in
            if negb (Py.truthy ai_response)
            then (answer empty_reply_text user_input (Py.len limited_screen_text), w1)
            else
              let w2 :=
                if Py.truthy session_id
                then snd (CommandService.process_command env w1 session_id
                            ("AI Analysis: " +:+ user_input))
                else w1 in
              (answer ai_response user_input (Py.len limited_screen_text), w2)
        | Raises (RateLimitError _) =>
            (fallback rate_limit_text "Rate limit exceeded"
               HTTP_429_TOO_MANY_REQUESTS, w1)
        | Raises (InvalidRequestError _) =>
            (fallback invalid_request_text "Invalid request"
               HTTP_400_BAD_REQUEST, w1)
        | Raises (AuthenticationError _) =>
            (fallback auth_failed_text "Authentication failed"
               HTTP_500_INTERNAL_SERVER_ERROR, w1)
        | Raises (APIError _) =>
            (fallback api_error_text "API error"
               HTTP_503_SERVICE_UNAVAILABLE, w1)
        | Raises (OtherError _) =>
            (fallback unexpected_text "Internal server error"
               HTTP_500_INTERNAL_SERVER_ERROR, w1)
        end
    end.

End Views.

(** ** Sequences of requests *)

Inductive operation :=
| CreateSession (u : uuid) (now : datetime)
| EndSession (now : datetime) (sid : string)
| ProcessCommand (env : environment) (sid command : string)
| GetTranscript (sid : string)
| AskAi (env : environment) (request : request_data).

Definition step `{UUIDField} (w : world) (o : operation) : world :=
  match o with
  | CreateSession u now => snd (SessionService.create_session u now w)
  | EndSession now sid => snd (SessionService.end_session now w sid)
  | ProcessCommand env sid command =>
      snd (CommandService.process_command env w sid command)
  | GetTranscript sid => snd (TranscriptService.get_session_transcript w sid)
  | AskAi env request => snd (Views.ask_ai env w request)
  end.

Definition run `{UUIDField} (w : world) (ops : list operation) : world :=
  fold_left step ops w.

(** The session invariant of the data model. *)
Definition session_ok (s : DemoSession) : Prop :=
  ended_at s <> None <-> is_active s = false.

Definition sessions_ok (w : world) : Prop :=
  forall u r, sessions w !! u = Some r -> session_ok (of_row u r).

(** Ascending timestamps. *)
Definition not_later (a b : CommandLog) : Prop := timestamp a <= timestamp b.

(** The rows of the command log that belong to session [u], in insertion
    order. *)
Definition rows_of (u : uuid) (w : world) : list CommandLog :=
  List.filter (CommandLog_objects.of_session u) (command_logs w).

(** ** The design document's wording, for comparison *)

Inductive route :=
| ToAI (prompt : string)
| ToRules.

(** Classification as worded: on the trimmed command. *)
Definition spec_classify (raw : string) : route :=
  let trimmed := Py.strip raw in
  if Py.startswith "ai:" (Py.lower trimmed)
  then ToAI (Py.strip (Py.slice_from 3 trimmed))
  else ToRules.

(** The ordered policy table of the rule-based responder. *)
Definition policy_table (now : datetime) : list (string * string) :=
  [("hello", CommandService.greeting);
   ("time", CommandService.time_prefix +:+ strftime_HMS now);
   ("help", CommandService.help_text)].

(** Top to bottom, first match wins, else the fallback. *)
Definition spec_rule_response (now : datetime) (command : string) : string :=
  match List.find (fun kv => Py.contains (fst kv) (Py.lower command))
                  (policy_table now) with
  | Some kv => snd kv
  | None => CommandService.fallback_text
  end.

(** ** serializers.py and the class-based views of views.py *)

(** [str(u)] of a UUID object. *)
Class UUIDStr := str_uuid : uuid -> string.

(** The field classes of the REST framework that the serializers
    instantiate: what [UUIDField()] and
    [CharField(max_length=..., min_length=...)] make of a submitted string,
    [None] when the field rejects it. *)
Class RestFields := {
  rest_UUIDField : string -> option uuid;
  rest_CharField : nat -> nat -> string -> option string
}.

(** [request.data] of send-command: each key may be absent. *)
Record command_request := {
  data_command_session_id : option string;
  data_command : option string
}.

Record validated_data := {
  validated_session_id : uuid;
  validated_command : string
}.

Module CommandRequestSerializer.

(** [validate_command]: [None] stands for the [ValidationError]. *)
Definition validate_command (value : string) : option string :=
  if negb (Py.truthy value) || negb (Py.truthy (Py.strip value))
  then None
  else Some (Py.strip value).

(** [session_id = serializers.UUIDField()]; an absent key is an error of
    the field. *)
Definition session_id_field `{RestFields} (data : command_request)
  : option uuid :=
  match data_command_session_id data with
  | Some v => rest_UUIDField v
  | None => None
  end.

(** [command = serializers.CharField(max_length=1000, min_length=1)], then
    [validate_command] on what the field returns. *)
Definition command_field `{RestFields} (data : command_request)
  : option string :=
  match data_command data with
  | Some v =>
      match rest_CharField 1000 1 v with
      | Some value => validate_command value
      | None => None
      end
  | None => None
  end.

Definition field_error {A} (name : string) (o : option A) : list string :=
  match o with
  | Some _ => []
  | None => [name]
  end.

(** [is_valid()]: the validated data, or the names of the fields in
    [serializer.errors]. *)
Definition is_valid `{RestFields} (data : command_request)
  : list string + validated_data :=
  match session_id_field data, command_field data with
  | Some u, Some c =>
      inr {| validated_session_id := u; validated_command := c |}
  | o1, o2 => inl (field_error "session_id" o1 ++ field_error "command" o2)
  end.

End CommandRequestSerializer.

(** [DemoSessionSerializer(session).data] *)
Record session_data := {
  ser_session_id : uuid;
  ser_started_at : datetime;
  ser_ended_at : option datetime;
  ser_is_active : bool
}.

Definition DemoSessionSerializer (s : DemoSession) : session_data :=
  {| ser_session_id := session_id s; ser_started_at := started_at s;
     ser_ended_at := ended_at s; ser_is_active := is_active s |}.

(** The dictionaries the class-based views answer with. *)
Inductive view_body :=
| MessageBody (message : string)
| StartedBody (message : string) (session : session_data)
| InvalidBody (error : string) (details : list string)
| FailedBody (error : string)
| CommandBody (result : payload)
| TranscriptBody (result : transcript_payload).

Module StartSessionView.

(** [post]: [u] and [now] are what [uuid.uuid4] and the clock give. *)
Definition post (u : uuid) (now : datetime) (w : world)
  : (view_body * Z) * world :=
  match SessionService.create_session u now w with
  | (Ok s, w') =>
      ((StartedBody "Session started successfully" (DemoSessionSerializer s),
        201), w')
  | (Raise _, w') =>
      ((FailedBody "Failed to start session", HTTP_500_INTERNAL_SERVER_ERROR),
       w')
  end.

End StartSessionView.

Module SendCommandView.

(** [post].  Nothing in the body of the [try] raises: [is_valid] collects
    the errors and [process_command] catches its own. *)
Definition post `{UUIDField} `{UUIDStr} `{RestFields} (env : environment)
    (w : world) (data : command_request) : (view_body * Z) * world :=
  match CommandRequestSerializer.is_valid data with
  | inl errors =>
      ((InvalidBody "Invalid request data" errors, HTTP_400_BAD_REQUEST), w)
  | inr v =>
      let session_id := validated_session_id v in
      let command := validated_command v in
      let '((result, status_code), w') :=
        CommandService.process_command env w (str_uuid session_id) command in
      ((CommandBody result, status_code), w')
  end.

End SendCommandView.

Module TranscriptView.

(** [get]: the URL converter hands over a UUID. *)
Definition get `{UUIDField} `{UUIDStr} (w : world) (session_id : uuid)
  : (view_body * Z) * world :=
  let '((result, status_code), w') :=
    TranscriptService.get_session_transcript w (str_uuid session_id) in
  ((TranscriptBody result, status_code), w').

End TranscriptView.

Module EndSessionView.

(** [post]: the URL converter hands over a UUID. *)
Definition post `{UUIDField} `{UUIDStr} (now : datetime) (w : world)
    (session_id : uuid) : (view_body * Z) * world :=
  match SessionService.end_session now w (str_uuid session_id) with
  | (Ok true, w') =>
      ((MessageBody "Session ended successfully", HTTP_200_OK), w')
  | (Ok false, w') =>
      ((FailedBody "Session not found or already ended", HTTP_404_NOT_FOUND),
       w')
  | (Raise _, w') =>
      ((FailedBody "Internal server error", HTTP_500_INTERNAL_SERVER_ERROR),
       w')
  end.

End EndSessionView.

(** ** admin.py *)

(** [conditional_escape] on a plain string, as [format_html] applies it to
    its arguments. *)
Class Html := escape : string -> string.

(** [f"{minutes:.1f}"] for a span of time given in microseconds: the
    division and the rounding are those of Python's floats. *)
Class MinutesFormat := minutes_1f : Z -> string.

(** [str(n)] of an integer. *)
Definition str_int (n : Z) : string :=
  DecimalString.NilZero.string_of_int (Z.to_int n).

Module CommandLogAdmin.

Definition command_preview `{Html} (obj : CommandLog) : string :=
  let text := Py.slice_to 50 (command_text obj) in
  let text := if (50 <? Py.len (command_text obj))%nat then text +:+ "..."
              else text in
  "<span title=" +:+ Views.dquote +:+ escape (command_text obj)
    +:+ Views.dquote +:+ ">" +:+ escape text +:+ "</span>".

Definition response_preview `{Html} (obj : CommandLog) : string :=
  let text := Py.slice_to 50 (response obj) in
  let text := if (50 <? Py.len (response obj))%nat then text +:+ "..."
              else text in
  "<span title=" +:+ Views.dquote +:+ escape (response obj)
    +:+ Views.dquote +:+ ">" +:+ escape text +:+ "</span>".

Definition processing_time_display `{Html} (obj : CommandLog) : string :=
  match processing_time_ms obj with
  | Some n =>
      if n =? 0 then "N/A"
      else
        let color := if n <? 1000 then "green"
                     else if n <? 3000 then "orange" else "red" in
        "<span style=" +:+ Views.dquote +:+ "color: " +:+ escape color
          +:+ ";" +:+ Views.dquote +:+ ">" +:+ escape (str_int n)
          +:+ "ms</span>"
  | None => "N/A"
  end.

End CommandLogAdmin.

Module DemoSessionAdmin.

Definition command_count_display `{Html} (w : world) (obj : DemoSession)
  : string :=
  let commands := List.filter (CommandLog_objects.of_session (session_id obj))
                    (command_logs w) in
  let count := Z.of_nat (length commands) in
  let ai_count := Z.of_nat (length (List.filter is_ai_response commands)) in
  let dummy_count := count - ai_count in
  "<div style=" +:+ Views.dquote +:+ "margin: 10px 0;" +:+ Views.dquote
    +:+ "><strong>Total Commands:</strong> " +:+ escape (str_int count)
    +:+ "<br><strong>AI Responses:</strong> " +:+ escape (str_int ai_count)
    +:+ "<br><strong>Dummy Responses:</strong> "
    +:+ escape (str_int dummy_count) +:+ "</div>".

(** [started_at] is set at creation ([auto_now_add]) and never null, so
    the first test is the one on [ended_at]. *)
Definition duration_display `{MinutesFormat} (obj : DemoSession) : string :=
  match ended_at obj with
  | Some ended =>
      let duration := ended - started_at obj in
      minutes_1f duration +:+ " minutes"
  | None => if is_active obj then "Active" else "N/A"
  end.

End DemoSessionAdmin.

(** ** What the services keep true of the command log *)

(** A row is well formed in [w]: its session exists, its command is not
    empty and is trimmed, and a row marked as AI-generated carries a
    command with the [ai:] prefix. *)
Definition row_ok (w : world) (c : CommandLog) : Prop :=
  is_Some (sessions w !! session c)
  /\ command_text c <> EmptyString
  /\ Py.strip (command_text c) = command_text c
  /\ (is_ai_response c = true ->
      Py.startswith "ai:" (Py.lower (command_text c)) = true).

(** The ids of the rows count up from 1 in insertion order. *)
Definition ids_ok (w : world) : Prop :=
  map log_id (command_logs w)
  = map (fun i => Z.of_nat i + 1) (seq 0 (length (command_logs w))).

Definition log_ok (w : world) : Prop :=
  Forall (row_ok w) (command_logs w) /\ ids_ok w.


(** The row a dispatch of [command] for session [s] adds to the log of
    [w]. *)
Definition dispatched_row (env : environment) (w : world) (s : DemoSession)
    (command resp : string) (is_ai : bool) : CommandLog :=
  {| log_id := Z.of_nat (length (command_logs w)) + 1;
     session := session_id s; timestamp := now_auto_add env;
     command_text := Py.strip command; response := resp;
     is_ai_response := is_ai;
     processing_time_ms := Some (time_end env - time_start env) |}.

(** The environment a request of a run reads, if it reads one. *)
Definition op_env (o : operation) : option environment :=
  match o with
  | ProcessCommand env _ _ | AskAi env _ => Some env
  | _ => None
  end.

(** ** Fixtures *)

Definition hex_digit (c : ascii) : option N :=
  let n := Py.ord c in
  if ((48 <=? n) && (n <=? 57))%N then Some (n - 48)%N
  else if ((97 <=? n) && (n <=? 102))%N then Some (n - 87)%N
  else if ((65 <=? n) && (n <=? 70))%N then Some (n - 55)%N
  else None.

Fixpoint hex_value (acc : N) (s : string) : option N :=
  match s with
  | EmptyString => Some acc
  | String c t =>
      match hex_digit c with
      | Some d => hex_value (16 * acc + d)%N t
      | None => None
      end
  end.

Fixpoint remove_hyphens (s : string) : string :=
  match s with
  | EmptyString => EmptyString
  | String c t =>
      if ascii_dec c "-"%char then remove_hyphens t
      else String c (remove_hyphens t)
  end.

(** A parser of the hyphenated hexadecimal form of a UUID, used by the
    examples. *)
Definition hex_to_python : UUIDField := fun s =>
  let h := remove_hyphens s in
  if Nat.eqb (Py.len h) 32 then hex_value 0 h else None.

Definition sid1 : string := "00000000-0000-0000-0000-000000000001".
Definition sid2 : string := "00000000-0000-0000-0000-000000000002".

(** An environment whose completion service answers [reply]. *)
Definition env_with (reply : completion) : environment :=
  {| settings_OPENAI_API_KEY := Some "sk-test";
     environ_OPENAI_API_KEY := Some "sk-test";
     ChatCompletion_create := fun _ => reply;
     time_start := 1000; time_end := 1012;
     now_responder := 45296000000; now_auto_add := 45296000500 |}.

(** One active session, no commands yet. *)
Definition world1 : world :=
  snd (SessionService.create_session 1%N 45000000000 empty_world).

Definition session1 : DemoSession :=
  {| session_id := 1%N; started_at := 45000000000; ended_at := None;
     is_active := true |}.

(** The same environment a little later. *)
Definition env_later (reply : completion) : environment :=
  {| settings_OPENAI_API_KEY := Some "sk-test";
     environ_OPENAI_API_KEY := Some "sk-test";
     ChatCompletion_create := fun _ => reply;
     time_start := 2000; time_end := 2007;
     now_responder := 45300000000; now_auto_add := 45300000400 |}.

(** No API key anywhere. *)
Definition env_unconfigured : environment :=
  {| settings_OPENAI_API_KEY := None;
     environ_OPENAI_API_KEY := None;
     ChatCompletion_create := fun _ => Raises (OtherError "unreachable");
     time_start := 1000; time_end := 1012;
     now_responder := 45296000000; now_auto_add := 45296000500 |}.

Definition session1_ended : DemoSession :=
  {| session_id := 1%N; started_at := 45000000000;
     ended_at := Some 46000000000; is_active := false |}.

(** Session 1 ended. *)
Definition world_ended : world := save session1_ended world1.

(** Session 1 after two commands. *)
Definition world2 : world :=
  run (H := hex_to_python) world1
    [ProcessCommand (env_with (Completion "pong")) sid1 "hello";
     ProcessCommand (env_later (Completion "pong")) sid1 "What TIME is it?"].

Definition request_of (user_input screen_text session_id : string)
  : request_data :=
  {| data_user_input := Some user_input;
     data_screen_text := Some screen_text;
     data_session_id := Some session_id |}.

(** A screen text of 2000 characters. *)
Definition long_screen_text : string :=
  string_of_list_ascii (repeat "x"%char 2000).

Definition hex_char (d : N) : ascii :=
  if (d <? 10)%N then ascii_of_N (48 + d) else ascii_of_N (87 + d).

Fixpoint hex_digits (n : nat) (u : N) (acc : string) : string :=
  match n with
  | O => acc
  | S n' => hex_digits n' (u / 16)%N (String (hex_char (u mod 16)%N) acc)
  end.

(** The hyphenated hexadecimal form of a UUID, used by the examples. *)
Definition hex_str : UUIDStr := fun u =>
  let h := hex_digits 32 u EmptyString in
  String.substring 0 8 h +:+ "-" +:+ String.substring 8 4 h +:+ "-"
    +:+ String.substring 12 4 h +:+ "-" +:+ String.substring 16 4 h +:+ "-"
    +:+ String.substring 20 12 h.

Fixpoint no_nul (s : string) : bool :=
  match s with
  | EmptyString => true
  | String c t => negb (Py.ord c =? 0)%N && no_nul t
  end.

(** Field classes for the examples: the UUID parser above, and a text
    field that trims, refuses the blank and the NUL character and checks
    the two length bounds. *)
Definition sample_fields : RestFields :=
  {| rest_UUIDField := hex_to_python;
     rest_CharField := fun max_length min_length v =>
       let value := Py.strip v in
       if Py.truthy value && no_nul value
          && (min_length <=? Py.len value)%nat
          && (Py.len value <=? max_length)%nat
       then Some value else None |}.

Fixpoint escape_chars (s : string) : string :=
  match s with
  | EmptyString => EmptyString
  | String c t =>
      (if ascii_dec c "&" then "&amp;"
       else if ascii_dec c "<" then "&lt;"
       else if ascii_dec c ">" then "&gt;"
       else if ascii_dec c (ascii_of_N 34) then "&quot;"
       else if ascii_dec c "'" then "&#x27;"
       else String c EmptyString) +:+ escape_chars t
  end.

(** The escaping of the five HTML characters, used by the examples. *)
Definition html_escape : Html := escape_chars.

(** A one-decimal rendering for the examples: the nearest tenth of a
    minute, in exact arithmetic. *)
Definition sample_minutes_1f : MinutesFormat := fun d =>
  let tenths := (d + 3000000) / 6000000 in
  str_int (tenths / 10) +:+ "." +:+ str_int (tenths mod 10).

Definition command_data (session_id command : string) : command_request :=
  {| data_command_session_id := Some session_id;
     data_command := Some command |}.

(** A run: session 1 is created, receives a rule-based command, an AI
    command and an ask-ai request that names it, and is ended. *)
Definition sample_ops : list operation :=
  [CreateSession 1%N 45000000000;
   ProcessCommand (env_with (Completion "pong")) sid1 "hello";
   ProcessCommand (env_later (Completion " It is sunny. ")) sid1
     "AI: weather?";
   AskAi (env_later (Completion "A dashboard."))
     (request_of "what is here?" "Dashboard" sid1);
   EndSession 46000000000 sid1].

Definition sample_world : world := run (H := hex_to_python) empty_world sample_ops.

(** The row of the AI command in [sample_world]. *)
Definition sample_ai_row : CommandLog :=
  {| log_id := 2; session := 1%N; timestamp := 45300000400;
     command_text := "AI: weather?"; response := "It is sunny.";
     is_ai_response := true; processing_time_ms := Some 7 |}.

(** An environment whose two readings of [time.time()] coincide. *)
Definition env_instant : environment :=
  {| settings_OPENAI_API_KEY := Some "sk-test";
     environ_OPENAI_API_KEY := Some "sk-test";
     ChatCompletion_create := fun _ => Completion "pong";
     time_start := 1000; time_end := 1000;
     now_responder := 45296000000; now_auto_add := 45296000500 |}.

Example strip_ex : Py.strip "  ai: hi  " = "ai: hi".
Proof. reflexivity. Qed.

Example hex_to_python_sid1 : hex_to_python sid1 = Some 1%N.
Proof. reflexivity. Qed.

Example hex_to_python_bad : hex_to_python "test-session-123" = None.
Proof. reflexivity. Qed.

Example strftime_ex : strftime_HMS 45296000000 = "12:34:56".
Proof. reflexivity. Qed.

(** * Properties *)

(** ** Strings *)

Section StringFacts.

Import Py.

Lemma len_slice_to n s : len (slice_to n s) = Nat.min n (len s).
Proof.
  revert s; induction n as [|n IH]; intros [|c t]; simpl; auto.
Qed.

Lemma truthy_true s : truthy s = true <-> s <> EmptyString.
Proof. destruct s; simpl; split; congruence. Qed.

Lemma strip_falsy s : truthy s = false -> truthy (strip s) = false.
Proof. destruct s; simpl; [reflexivity | discriminate]. Qed.

Lemma rstrip_cons c t :
  rstrip (String c t) =
    if truthy (rstrip t) || negb (isspace c) then String c (rstrip t)
    else EmptyString.
Proof. simpl. destruct (rstrip t), (isspace c); reflexivity. Qed.


Lemma rstrip_idem s : rstrip (rstrip s) = rstrip s.
Proof.
  induction s as [|c t IH]; [reflexivity|].
  rewrite rstrip_cons.
  destruct (truthy (rstrip t) || negb (isspace c)) eqn:E; [|reflexivity].
  rewrite rstrip_cons, IH, E. reflexivity.
Qed.

Lemma lstrip_rstrip s : lstrip (rstrip s) = rstrip (lstrip s).
Proof.
  induction s as [|c t IH]; [reflexivity|].
  rewrite rstrip_cons. cbn [lstrip].
  destruct (isspace c) eqn:Ec; cbn [negb].
  - rewrite orb_false_r, <- IH.
    destruct (rstrip t); cbn [truthy lstrip]; [reflexivity|].
    rewrite Ec. reflexivity.
  - rewrite orb_true_r. cbn [lstrip]. rewrite Ec, rstrip_cons, Ec.
    rewrite orb_true_r. reflexivity.
Qed.

(** Trimming, then trimming again after cutting a trailing run of white
    space, is trimming. *)
Lemma strip_rstrip s : strip (rstrip s) = strip s.
Proof.
  unfold strip. rewrite lstrip_rstrip, rstrip_idem. reflexivity.
Qed.

Lemma startswith_lower_rstrip p s :
  startswith p (lower (rstrip s)) = true -> startswith p (lower s) = true.
Proof.
  revert p; induction s as [|c t IH]; intros p; [auto|].
  rewrite rstrip_cons.
  destruct (truthy (rstrip t) || negb (isspace c)).
  - destruct p as [|a p]; [reflexivity|]. cbn [lower startswith].
    destruct (ascii_dec a (lower_char c)); [apply IH | discriminate].
  - destruct p; [reflexivity | discriminate].
Qed.

Lemma lower_char_colon c : lower_char c = ":"%char -> c = ":"%char.
Proof.
  destruct c as [[] [] [] [] [] [] [] []]; vm_compute; congruence.
Qed.

Lemma lower_char_a_nonspace c : lower_char c = "a"%char -> isspace c = false.
Proof.
  destruct c as [[] [] [] [] [] [] [] []]; vm_compute; congruence.
Qed.

(** What a command that starts with [ai:] in any letter case looks like. *)
Lemma startswith_ai_inv s :
  startswith "ai:" (lower s) = true ->
  exists c1 c2 rest,
    s = String c1 (String c2 (String ":" rest)) /\ isspace c1 = false.
Proof.
  destruct s as [|c1 [|c2 [|c3 rest]]]; cbn [lower startswith];
    try discriminate;
    repeat (match goal with
            | |- context [ascii_dec ?a ?b] => destruct (ascii_dec a b)
            end; try discriminate).
  intros _. exists c1, c2, rest. split.
  - f_equal. f_equal. f_equal. apply lower_char_colon. congruence.
  - apply lower_char_a_nonspace. congruence.
Qed.

Lemma strip_ai_prefixed c1 c2 rest :
  isspace c1 = false ->
  strip (String c1 (String c2 (String ":" rest)))
  = String c1 (String c2 (String ":" (rstrip rest))).
Proof.
  intros H1. unfold strip. cbn [lstrip]. rewrite H1.
  rewrite (rstrip_cons c1), (rstrip_cons c2), (rstrip_cons ":").
  replace (isspace ":") with false by reflexivity.
  rewrite orb_true_r. cbn [truthy orb]. reflexivity.
Qed.

Lemma lstrip_fixed_strip s : lstrip s = s -> strip s = rstrip s.
Proof. unfold strip. intros ->. reflexivity. Qed.

Lemma lstrip_moved s :
  lstrip s <> s -> startswith "ai:" (lower s) = false.
Proof.
  destruct s as [|c t]; [reflexivity|]. cbn [lstrip lower startswith].
  destruct (isspace c) eqn:Ec; [intros _ | congruence].
  destruct (ascii_dec "a" (lower_char c)) as [e|]; [|reflexivity].
  symmetry in e. apply lower_char_a_nonspace in e. congruence.
Qed.

Lemma ai_analysis_not_ai u :
  startswith "ai:" (lower ("AI Analysis: " +:+ u)) = false.
Proof. reflexivity. Qed.

End StringFacts.

(** ** The store *)

Section StoreFacts.

Context `{UUIDField}.

Lemma get_session_found w sid s :
  SessionService.get_session w sid = Ok (Some s) ->
  exists u r, to_python sid = Some u /\ sessions w !! u = Some r /\ s = of_row u r.
Proof.
  unfold SessionService.get_session, DemoSession_objects.get.
  destruct (to_python sid) as [u|]; [|discriminate].
  destruct (sessions w !! u) as [r|] eqn:E; [|discriminate].
  intros [= <-]. eauto.
Qed.

Lemma handle_ai_store env w command :
  let w' := snd (CommandService._handle_ai_command env w command) in
  sessions w' = sessions w /\ command_logs w' = command_logs w.
Proof.
  unfold CommandService._handle_ai_command.
  destruct (configured _); [|auto].
  destruct (ChatCompletion_create _ _); auto.
Qed.

(** Past validation, [process_command] is the responder followed by one
    insertion. *)
Lemma process_command_accepted env w sid command s :
  SessionService.get_session w sid = Ok (Some s) ->
  is_active s = true ->
  Py.strip command <> EmptyString ->
  CommandService.process_command env w sid command =
    let r := if Py.startswith "ai:" (Py.lower command)
             then CommandService._handle_ai_command env w command
             else (CommandService._handle_dummy_command env command, w) in
    ((ResponseBody (fst (fst r)), 200),
     CommandLog_objects.create (now_auto_add env) s (Py.strip command)
       (fst (fst r)) (snd (fst r)) (Some (time_end env - time_start env))
       (snd r)).
Proof.
  intros Hs Ha Hc. unfold CommandService.process_command.
  rewrite Hs, Ha. cbn [negb].
  assert (Py.truthy (Py.strip command) = true) as Ht
    by (apply truthy_true; exact Hc).
  assert (Py.truthy command = true) as Ht'.
  { destruct (Py.truthy command) eqn:E; [reflexivity|].
    apply strip_falsy in E. congruence. }
  rewrite Ht, Ht'. cbn [negb orb].
  destruct (Py.startswith "ai:" (Py.lower command)).
  - destruct (CommandService._handle_ai_command env w command) as [[r b] w1].
    reflexivity.
  - destruct (CommandService._handle_dummy_command env command) as [r b].
    reflexivity.
Qed.

Lemma process_command_empty env w sid command s :
  SessionService.get_session w sid = Ok (Some s) ->
  is_active s = true ->
  Py.strip command = EmptyString ->
  CommandService.process_command env w sid command =
    ((ErrorBody "Command cannot be empty", 400), w).
Proof.
  intros Hs Ha Hc. unfold CommandService.process_command.
  rewrite Hs, Ha, Hc. cbn [negb Py.truthy]. rewrite orb_true_r. reflexivity.
Qed.

Lemma process_command_sessions env w sid command :
  sessions (snd (CommandService.process_command env w sid command)) = sessions w.
Proof.
  destruct (SessionService.get_session w sid) as [[s|]|e] eqn:Hs.
  - destruct (is_active s) eqn:Ha.
    + destruct (decide (Py.strip command = EmptyString)) as [Hc|Hc].
      * rewrite (process_command_empty env _ _ _ _ Hs Ha Hc). reflexivity.
      * rewrite (process_command_accepted env _ _ _ _ Hs Ha Hc). cbv zeta.
        cbn [snd CommandLog_objects.create sessions].
        destruct (Py.startswith _ _); [|reflexivity].
        apply handle_ai_store.
    + unfold CommandService.process_command. rewrite Hs, Ha. reflexivity.
  - unfold CommandService.process_command. rewrite Hs. reflexivity.
  - unfold CommandService.process_command. rewrite Hs. reflexivity.
Qed.

Lemma ask_ai_sessions env w request :
  sessions (snd (Views.ask_ai env w request)) = sessions w.
Proof.
  unfold Views.ask_ai.
  destruct (negb (Py.truthy (Py.strip _))); [reflexivity|].
  destruct (configured _); [|reflexivity].
  destruct (ChatCompletion_create _ _) as [content|e].
  - destruct (negb (Py.truthy (Py.strip content))); [reflexivity|].
    cbn [snd]. destruct (Py.truthy _); [|reflexivity].
    rewrite process_command_sessions. reflexivity.
  - destruct e; reflexivity.
Qed.

Lemma save_ok s w : session_ok s -> sessions_ok w -> sessions_ok (save s w).
Proof.
  intros Hs Hw u r. unfold save; cbn [sessions].
  rewrite lookup_insert. case_decide as E.
  - intros [= <-]. subst u. destruct s; exact Hs.
  - apply Hw.
Qed.

Lemma sessions_ok_ext w w' :
  sessions w' = sessions w -> sessions_ok w -> sessions_ok w'.
Proof. intros E Hw u r. rewrite E. apply Hw. Qed.

Lemma step_ok w o : sessions_ok w -> sessions_ok (step w o).
Proof.
  intros Hw. destruct o as [u now|now sid|env sid command|sid|env request];
    cbn [step].
  - unfold SessionService.create_session, DemoSession_objects.create.
    destruct (sessions w !! u); [exact Hw|]. cbn [snd].
    apply save_ok; [|exact Hw]. split; cbn; congruence.
  - unfold SessionService.end_session.
    destruct (SessionService.get_session w sid) as [[s|]|e]; try exact Hw.
    destruct (is_active s); [|exact Hw]. cbn [snd DemoSession_methods.end_session].
    apply save_ok; [|exact Hw]. split; cbn; congruence.
  - eapply sessions_ok_ext; [apply process_command_sessions | exact Hw].
  - unfold TranscriptService.get_session_transcript.
    destruct (SessionService.get_session w sid) as [[s|]|e]; exact Hw.
  - eapply sessions_ok_ext; [apply ask_ai_sessions | exact Hw].
Qed.

Lemma run_ok ops : forall w, sessions_ok w -> sessions_ok (run w ops).
Proof.
  induction ops as [|o ops IH]; intros w Hw; [exact Hw|].
  cbn [run fold_left]. apply IH, step_ok, Hw.
Qed.

(** Ended is terminal: no request changes the row of an ended session. *)
Lemma step_keeps_ended w o u r :
  sessions w !! u = Some r -> row_is_active r = false ->
  sessions (step w o) !! u = Some r.
Proof.
  intros Hr Hend.
  destruct o as [u' now|now sid|env sid command|sid|env request]; cbn [step].
  - unfold SessionService.create_session, DemoSession_objects.create.
    destruct (sessions w !! u') eqn:E; [exact Hr|]. cbn.
    rewrite lookup_insert_ne; [exact Hr | congruence].
  - unfold SessionService.end_session.
    destruct (SessionService.get_session w sid) as [[s|]|e] eqn:Hs;
      try exact Hr.
    destruct (is_active s) eqn:Ha; [|exact Hr].
    apply get_session_found in Hs as (u' & r' & _ & Hr' & ->). cbn in Ha |- *.
    rewrite lookup_insert_ne; [exact Hr | congruence].
  - rewrite process_command_sessions. exact Hr.
  - unfold TranscriptService.get_session_transcript.
    destruct (SessionService.get_session w sid) as [[s|]|e]; exact Hr.
  - rewrite ask_ai_sessions. exact Hr.
Qed.

Lemma run_keeps_ended ops : forall w u r,
  sessions w !! u = Some r -> row_is_active r = false ->
  sessions (run w ops) !! u = Some r.
Proof.
  induction ops as [|o ops IH]; intros w u r Hr Hend; [exact Hr|].
  cbn [run fold_left]. apply IH; [|exact Hend].
  apply step_keeps_ended; assumption.
Qed.

Lemma empty_world_ok : sessions_ok empty_world.
Proof. intros u r. cbn. rewrite lookup_empty. discriminate. Qed.

End StoreFacts.

(** ** Ordering by timestamp *)

Section OrderFacts.

Import CommandLog_objects.

Lemma insert_by_timestamp_perm c l :
  Permutation (insert_by_timestamp c l) (c :: l).
Proof.
  induction l as [|d l IH]; cbn [insert_by_timestamp]; [reflexivity|].
  destruct (timestamp c <=? timestamp d); [reflexivity|].
  rewrite IH. apply perm_swap.
Qed.



Lemma order_by_timestamp_perm l : Permutation (order_by_timestamp l) l.
Proof.
  induction l as [|c l IH]; [reflexivity|].
  cbn [order_by_timestamp foldr]. rewrite insert_by_timestamp_perm.
  constructor. exact IH.
Qed.




End OrderFacts.

Section ClockOrder.

Context `{UUIDField}.

(** A dispatch whose clock is not behind the timestamps already logged
    keeps the log in ascending order. *)
Lemma process_command_in_order env w sid command :
  StronglySorted not_later (command_logs w) ->
  Forall (fun c => timestamp c <= now_auto_add env) (command_logs w) ->
  StronglySorted not_later
    (command_logs (snd (CommandService.process_command env w sid command))).
Proof.
  intros Hs Hnow.
  destruct (SessionService.get_session w sid) as [[s|]|e] eqn:Hg.
  - destruct (is_active s) eqn:Ha.
    + destruct (decide (Py.strip command = EmptyString)) as [Hc|Hc].
      * rewrite (process_command_empty env _ _ _ _ Hg Ha Hc). exact Hs.
      * rewrite (process_command_accepted env _ _ _ _ Hg Ha Hc). cbv zeta.
        cbn [snd CommandLog_objects.create command_logs].
        assert (command_logs
                  (snd (if Py.startswith "ai:" (Py.lower command)
                        then CommandService._handle_ai_command env w command
                        else (CommandService._handle_dummy_command env command,
                              w))) = command_logs w) as ->.
        { destruct (Py.startswith _ _); [apply handle_ai_store | reflexivity]. }
        apply StronglySorted_app_2; [|exact Hs|repeat constructor].
        intros x1 x2 H1 H2. apply list_elem_of_singleton in H2 as ->.
        rewrite List.Forall_forall in Hnow. apply Hnow.
        apply list_elem_of_In. exact H1.
    + unfold CommandService.process_command. rewrite Hg, Ha. exact Hs.
  - unfold CommandService.process_command. rewrite Hg. exact Hs.
  - unfold CommandService.process_command. rewrite Hg. exact Hs.
Qed.

End ClockOrder.

(** ** Command dispatch *)

(** C1.  A call of [process_command] that passes validation (the session
    is found, it is active, the trimmed command is not empty) answers 200
    and appends exactly one row to the command log, for that session and
    with the trimmed command; the sessions are untouched.  A call that is
    rejected (session not found: 404; session ended: 400; empty command:
    400; the lookup itself raising: 500) leaves the whole store as it
    was. *)
Theorem process_command_logs_once `{UUIDField} env w sid command :
  (forall s,
      SessionService.get_session w sid = Ok (Some s) ->
      is_active s = true ->
      Py.strip command <> EmptyString ->
      exists resp entry w',
        CommandService.process_command env w sid command
          = ((ResponseBody resp, 200), w')
        /\ command_logs w' = command_logs w ++ [entry]
        /\ sessions w' = sessions w
        /\ session entry = session_id s
        /\ command_text entry = Py.strip command
        /\ response entry = resp)
  /\ (SessionService.get_session w sid = Ok None ->
      CommandService.process_command env w sid command
        = ((ErrorBody "Session not found", 404), w))
  /\ (forall s,
      SessionService.get_session w sid = Ok (Some s) ->
      is_active s = false ->
      CommandService.process_command env w sid command
        = ((ErrorBody "Session has ended", 400), w))
  /\ (forall s,
      SessionService.get_session w sid = Ok (Some s) ->
      is_active s = true ->
      Py.strip command = EmptyString ->
      CommandService.process_command env w sid command
        = ((ErrorBody "Command cannot be empty", 400), w))
  /\ (forall e,
      SessionService.get_session w sid = Raise e ->
      CommandService.process_command env w sid command
        = ((ErrorBody "Internal server error", 500), w)).
Proof.
  repeat split.
  - intros s Hs Ha Hc.
    rewrite (process_command_accepted env w sid command s Hs Ha Hc).
    cbv zeta.
    set (r := if Py.startswith "ai:" (Py.lower command)
              then CommandService._handle_ai_command env w command
              else (CommandService._handle_dummy_command env command, w)).
    assert (sessions (snd r) = sessions w
            /\ command_logs (snd r) = command_logs w) as [Es El].
    { subst r. destruct (Py.startswith _ _); [apply handle_ai_store | auto]. }
    eexists _, _, _. split; [reflexivity|].
    cbn [CommandLog_objects.create command_logs sessions session
           command_text response].
    rewrite El, Es. auto.
  - intros Hs. unfold CommandService.process_command. rewrite Hs. reflexivity.
  - intros s Hs Ha. unfold CommandService.process_command.
    rewrite Hs, Ha. reflexivity.
  - intros s Hs Ha Hc. apply (process_command_empty env w sid command s Hs Ha Hc).
  - intros e Hs. unfold CommandService.process_command. rewrite Hs. reflexivity.
Qed.

(** ** Session lifecycle *)

(** C2.  After any sequence of requests on the empty store, every session
    has [ended_at] set exactly when [is_active] is false.  A created
    session is stored active with no [ended_at]; ending a session stores
    both fields at once. *)
Theorem session_invariant `{UUIDField} :
  (forall ops sid s,
      SessionService.get_session (run empty_world ops) sid = Ok (Some s) ->
      session_ok s)
  /\ (forall u now w s w',
      SessionService.create_session u now w = (Ok s, w') ->
      is_active s = true /\ ended_at s = None
      /\ sessions w' !! u = Some (to_row s))
  /\ (forall now s w,
      let r := DemoSession_methods.end_session now s w in
      is_active (fst r) = false /\ ended_at (fst r) = Some now
      /\ sessions (snd r) !! session_id s = Some (to_row (fst r))).
Proof.
  split; [|split].
  - intros ops sid s Hs.
    apply get_session_found in Hs as (u & r & _ & Hr & ->).
    apply (run_ok ops empty_world empty_world_ok u r Hr).
  - intros u now w s w'.
    unfold SessionService.create_session, DemoSession_objects.create.
    destruct (sessions w !! u); [discriminate|]. intros [= <- <-].
    repeat split. cbn. apply lookup_insert_eq.
  - intros now s w. repeat split. cbn. apply lookup_insert_eq.
Qed.

(** C6.  [end_session] answers true and stores the transition when the
    session is found and active; it answers false and leaves the store as
    it was when the session is not found or has ended.  A second call on
    the same session answers false and changes nothing. *)
Theorem end_session_idempotent `{UUIDField} now w sid :
  (forall s,
      SessionService.get_session w sid = Ok (Some s) ->
      is_active s = true ->
      let ended := {| session_id := session_id s; started_at := started_at s;
                      ended_at := Some now; is_active := false |} in
      SessionService.end_session now w sid = (Ok true, save ended w)
      /\ SessionService.get_session (save ended w) sid = Ok (Some ended))
  /\ (SessionService.get_session w sid = Ok None ->
      SessionService.end_session now w sid = (Ok false, w))
  /\ (forall s,
      SessionService.get_session w sid = Ok (Some s) ->
      is_active s = false ->
      SessionService.end_session now w sid = (Ok false, w))
  /\ (forall b w' now',
      SessionService.end_session now w sid = (Ok b, w') ->
      SessionService.end_session now' w' sid = (Ok false, w')).
Proof.
  assert (forall s,
      SessionService.get_session w sid = Ok (Some s) ->
      let ended := {| session_id := session_id s; started_at := started_at s;
                      ended_at := Some now; is_active := false |} in
      SessionService.get_session (save ended w) sid = Ok (Some ended)) as Hget.
  { intros s Hs ended.
    apply get_session_found in Hs as (u & r & Hu & Hr & ->).
    unfold SessionService.get_session, DemoSession_objects.get.
    rewrite Hu. cbn. rewrite lookup_insert_eq. reflexivity. }
  split; [|split; [|split]].
  - intros s Hs Ha ended. split; [|apply Hget, Hs].
    unfold SessionService.end_session. rewrite Hs, Ha. reflexivity.
  - intros Hs. unfold SessionService.end_session. rewrite Hs. reflexivity.
  - intros s Hs Ha. unfold SessionService.end_session. rewrite Hs, Ha.
    reflexivity.
  - intros b w' now'. unfold SessionService.end_session at 1.
    destruct (SessionService.get_session w sid) as [[s|]|e] eqn:Hs.
    + destruct (is_active s) eqn:Ha; intros [= <- <-].
      * cbn [snd DemoSession_methods.end_session].
        unfold SessionService.end_session. rewrite (Hget s eq_refl). reflexivity.
      * unfold SessionService.end_session. rewrite Hs, Ha. reflexivity.
    + intros [= <- <-]. unfold SessionService.end_session. rewrite Hs.
      reflexivity.
    + discriminate.
Qed.

(** ** Classification and the two responders *)

(** C3, as the code has it.  For a command that passes validation,
    [process_command] looks for the prefix [ai:] (in any letter case) in
    the command as it was passed, not in the trimmed command.  With the
    prefix, the AI responder answers, the prompt being the text after the
    first three characters, trimmed, which is the prompt the design
    document names; without it, the rule-based responder answers.  For a
    command with no leading white space the outcome is the one the design
    document words on the trimmed command; a command with leading white
    space always goes to the rule-based responder. *)
Theorem dispatch_classifies_raw_command `{UUIDField} env w sid command s :
  SessionService.get_session w sid = Ok (Some s) ->
  is_active s = true ->
  Py.strip command <> EmptyString ->
  let logged (r : string * bool * world) :=
    ((ResponseBody (fst (fst r)), 200),
     CommandLog_objects.create (now_auto_add env) s (Py.strip command)
       (fst (fst r)) (snd (fst r)) (Some (time_end env - time_start env))
       (snd r)) in
  let prompt := Py.strip (Py.slice_from 3 command) in
  (Py.startswith "ai:" (Py.lower command) = true ->
     CommandService.process_command env w sid command
       = logged (CommandService._handle_ai_command env w command)
     /\ spec_classify command = ToAI prompt
     /\ (forall k, configured (settings_OPENAI_API_KEY env) = Some k ->
         outbox (snd (CommandService._handle_ai_command env w command))
           = outbox w ++ [CommandService.completion_request prompt]))
  /\ (Py.startswith "ai:" (Py.lower command) = false ->
      CommandService.process_command env w sid command
        = logged (CommandService._handle_dummy_command env command, w))
  /\ (Py.lstrip command = command ->
      spec_classify command
        = if Py.startswith "ai:" (Py.lower command) then ToAI prompt
          else ToRules)
  /\ (Py.lstrip command <> command ->
      Py.startswith "ai:" (Py.lower command) = false).
Proof.
  intros Hs Ha Hc logged prompt.
  assert (Py.startswith "ai:" (Py.lower command) = true ->
          spec_classify command = ToAI prompt) as Hspec.
  { intros Hp. destruct (startswith_ai_inv _ Hp) as (c1 & c2 & rest & -> & H1).
    unfold spec_classify. rewrite (strip_ai_prefixed c1 c2 rest H1).
    cbn [Py.lower Py.startswith] in Hp |- *.
    destruct (ascii_dec "a" (Py.lower_char c1)); [|discriminate].
    destruct (ascii_dec "i" (Py.lower_char c2)); [|discriminate].
    cbn [Py.slice_from]. subst prompt. cbn [Py.slice_from].
    rewrite strip_rstrip. reflexivity. }
  split; [|split; [|split]].
  - intros Hp. split; [|split].
    + rewrite (process_command_accepted env w sid command s Hs Ha Hc), Hp.
      reflexivity.
    + apply Hspec, Hp.
    + intros k Hk. unfold CommandService._handle_ai_command. rewrite Hk.
      destruct (ChatCompletion_create _ _); reflexivity.
  - intros Hp.
    rewrite (process_command_accepted env w sid command s Hs Ha Hc), Hp.
    reflexivity.
  - intros Hl.
    destruct (Py.startswith "ai:" (Py.lower command)) eqn:Hp; [auto|].
    unfold spec_classify. rewrite (lstrip_fixed_strip _ Hl).
    destruct (Py.startswith "ai:" (Py.lower (Py.rstrip command))) eqn:Hq;
      [|reflexivity].
    apply startswith_lower_rstrip in Hq. congruence.
  - apply lstrip_moved.
Qed.

(** C4.  When a command that passes validation carries the [ai:] prefix
    and the completion service is not configured or its call raises,
    [process_command] still answers 200: the response is the text that
    describes the failure, and the one row appended to the command log
    carries that text with [is_ai_response] false. *)
Theorem ai_failure_is_absorbed `{UUIDField} env w sid command s msg :
  SessionService.get_session w sid = Ok (Some s) ->
  is_active s = true ->
  Py.strip command <> EmptyString ->
  Py.startswith "ai:" (Py.lower command) = true ->
  (configured (settings_OPENAI_API_KEY env) = None
     /\ msg = "AI service not configured")
  \/ (exists k e,
       configured (settings_OPENAI_API_KEY env) = Some k
       /\ ChatCompletion_create env
            (CommandService.completion_request
               (Py.strip (Py.slice_from 3 command))) = Raises e
       /\ msg = "AI service error: " +:+ str e) ->
  exists entry w',
    CommandService.process_command env w sid command
      = ((ResponseBody msg, 200), w')
    /\ command_logs w' = command_logs w ++ [entry]
    /\ sessions w' = sessions w
    /\ command_text entry = Py.strip command
    /\ response entry = msg
    /\ is_ai_response entry = false.
Proof.
  intros Hs Ha Hc Hp Hfail.
  rewrite (process_command_accepted env w sid command s Hs Ha Hc), Hp.
  cbv zeta. unfold CommandService._handle_ai_command.
  destruct Hfail as [[Hk ->] | (k & e & Hk & He & ->)]; rewrite Hk.
  - eexists _, _. split; [reflexivity|]. cbn. auto.
  - rewrite He. eexists _, _. split; [reflexivity|]. cbn. auto.
Qed.

(** C5.  The rule-based responder answers by the ordered table, top to
    bottom, first match wins, on the lower-cased command: [hello] gives the
    greeting, else [time] the sentence with the clock's reading as
    HH:MM:SS, else [help] the help text, else the fallback.  Its answer
    depends on the command only up to letter case, is never marked as
    AI-generated, and a dispatch that reaches it answers 200 and logs the
    row with [is_ai_response] false. *)
Theorem rule_based_responder_table `{UUIDField} env command :
  let c := Py.lower command in
  let r := CommandService._handle_dummy_command env command in
  r = (spec_rule_response (now_responder env) command, false)
  /\ (Py.contains "hello" c = true -> fst r = CommandService.greeting)
  /\ (Py.contains "hello" c = false -> Py.contains "time" c = true ->
      fst r = CommandService.time_prefix +:+ strftime_HMS (now_responder env)
      /\ Py.len (strftime_HMS (now_responder env)) = 8%nat)
  /\ (Py.contains "hello" c = false -> Py.contains "time" c = false ->
      Py.contains "help" c = true -> fst r = CommandService.help_text)
  /\ (Py.contains "hello" c = false -> Py.contains "time" c = false ->
      Py.contains "help" c = false -> fst r = CommandService.fallback_text)
  /\ (forall command',
      Py.lower command' = Py.lower command ->
      CommandService._handle_dummy_command env command' = r)
  /\ (forall w sid s,
      SessionService.get_session w sid = Ok (Some s) ->
      is_active s = true ->
      Py.strip command <> EmptyString ->
      Py.startswith "ai:" c = false ->
      exists entry w',
        CommandService.process_command env w sid command
          = ((ResponseBody (fst r), 200), w')
        /\ command_logs w' = command_logs w ++ [entry]
        /\ response entry = fst r
        /\ is_ai_response entry = false).
Proof.
  intros c r. subst c r.
  unfold CommandService._handle_dummy_command, spec_rule_response, policy_table.
  cbn [List.find fst snd].
  split; [|split; [|split; [|split; [|split; [|split]]]]].
  - destruct (Py.contains "hello" _); [reflexivity|].
    destruct (Py.contains "time" _); [reflexivity|].
    destruct (Py.contains "help" _); reflexivity.
  - intros ->. reflexivity.
  - intros -> ->. split; reflexivity.
  - intros -> -> ->. reflexivity.
  - intros -> -> ->. reflexivity.
  - intros command' ->. reflexivity.
  - intros w sid s Hs Ha Hc Hp.
    rewrite (process_command_accepted env w sid command s Hs Ha Hc), Hp.
    cbv zeta. fold (CommandService._handle_dummy_command env command).
    eexists _, _. split; [reflexivity|]. cbn [CommandLog_objects.create
      command_logs response is_ai_response fst snd].
    repeat split.
    unfold CommandService._handle_dummy_command.
    destruct (Py.contains "hello" _); [reflexivity|].
    destruct (Py.contains "time" _); [reflexivity|].
    destruct (Py.contains "help" _); reflexivity.
Qed.

(** ** Transcripts *)


(** ** ask_ai *)

Section AskAiFacts.

Context `{UUIDField}.

Lemma process_command_outbox_rules env w sid command :
  Py.startswith "ai:" (Py.lower command) = false ->
  outbox (snd (CommandService.process_command env w sid command)) = outbox w.
Proof.
  intros Hp. unfold CommandService.process_command.
  destruct (SessionService.get_session w sid) as [[s|]|e]; try reflexivity.
  destruct (negb (is_active s)); [reflexivity|].
  destruct (negb (Py.truthy command) || negb (Py.truthy (Py.strip command)));
    [reflexivity|].
  rewrite Hp.
  destruct (CommandService._handle_dummy_command env command). reflexivity.
Qed.

(** What [ask_ai] does once the input is valid and the key is set: one
    request goes out, and the reply decides the rest. *)
Lemma ask_ai_called env w request k :
  let user_input := default EmptyString (data_user_input request) in
  let screen_text := default EmptyString (data_screen_text request) in
  let session_id := default EmptyString (data_session_id request) in
  let limited := if Py.truthy screen_text then Py.slice_to 1500 screen_text
                 else Views.no_screen_content in
  let req := Views.completion_request (Views.build_prompt limited user_input) in
  Py.truthy (Py.strip user_input) = true ->
  configured (environ_OPENAI_API_KEY env) = Some k ->
  Views.ask_ai env w request =
    match ChatCompletion_create env req with
    | Completion content =>
        if Py.truthy (Py.strip content)
        then (Views.answer (Py.strip content) user_input (Py.len limited),
              if Py.truthy session_id
              then snd (CommandService.process_command env (sent req w)
                          session_id ("AI Analysis: " +:+ user_input))
              else sent req w)
        else (Views.answer Views.empty_reply_text user_input (Py.len limited),
              sent req w)
    | Raises (RateLimitError _) =>
        (Views.fallback Views.rate_limit_text "Rate limit exceeded" 429,
         sent req w)
    | Raises (InvalidRequestError _) =>
        (Views.fallback Views.invalid_request_text "Invalid request" 400,
         sent req w)
    | Raises (AuthenticationError _) =>
        (Views.fallback Views.auth_failed_text "Authentication failed" 500,
         sent req w)
    | Raises (APIError _) =>
        (Views.fallback Views.api_error_text "API error" 503, sent req w)
    | Raises (OtherError _) =>
        (Views.fallback Views.unexpected_text "Internal server error" 500,
         sent req w)
    end.
Proof.
  intros user_input screen_text session_id limited req Hu Hk.
  unfold Views.ask_ai. fold user_input screen_text session_id.
  rewrite Hu, Hk. cbn [negb]. fold limited. fold req.
  destruct (ChatCompletion_create env req) as [content|e]; [|reflexivity].
  destruct (Py.truthy (Py.strip content)); reflexivity.
Qed.

Lemma limited_within_budget screen_text :
  (Py.len (if Py.truthy screen_text then Py.slice_to 1500 screen_text
           else Views.no_screen_content) <= 1500)%nat.
Proof.
  destruct (Py.truthy screen_text).
  - rewrite len_slice_to. apply Nat.le_min_l.
  - apply Nat.leb_le. vm_compute. reflexivity.
Qed.

(** Any other exception of the completion call reaches the outer handler
    of [ask_ai]: 500 with the general text. *)
Lemma ask_ai_other_exception env w request k m :
  let user_input := default EmptyString (data_user_input request) in
  let screen_text := default EmptyString (data_screen_text request) in
  let limited := if Py.truthy screen_text then Py.slice_to 1500 screen_text
                 else Views.no_screen_content in
  let req := Views.completion_request (Views.build_prompt limited user_input) in
  Py.truthy (Py.strip user_input) = true ->
  configured (environ_OPENAI_API_KEY env) = Some k ->
  ChatCompletion_create env req = Raises (OtherError m) ->
  Views.ask_ai env w request
    = (Views.fallback Views.unexpected_text "Internal server error" 500,
       sent req w).
Proof.
  intros user_input screen_text limited req Hu Hk He.
  rewrite (ask_ai_called env w request k Hu Hk).
  fold user_input screen_text limited req. rewrite He. reflexivity.
Qed.

End AskAiFacts.

(** C8, as the code has it.  Whatever the screen text, the prompt that
    goes out embeds a context of at most 1500 characters, and nothing is
    raised for a longer text.  On a 200 answer the reported context length
    is the length of that context: [min (len screen_text) 1500] for a
    screen text that is not empty, and 27, the length of the placeholder
    that stands in for it, for the empty screen text. *)
Theorem ask_ai_context_budget `{UUIDField} env w request :
  let user_input := default EmptyString (data_user_input request) in
  let screen_text := default EmptyString (data_screen_text request) in
  let limited := if Py.truthy screen_text then Py.slice_to 1500 screen_text
                 else Views.no_screen_content in
  let req := Views.completion_request (Views.build_prompt limited user_input) in
  let r := Views.ask_ai env w request in
  (Py.len limited <= 1500)%nat
  /\ (outbox (snd r) = outbox w \/ outbox (snd r) = outbox w ++ [req])
  /\ (status_code (fst r) = HTTP_200_OK ->
      outbox (snd r) = outbox w ++ [req]
      /\ body_screen_context_length (data (fst r))
           = Some (Z.of_nat (Py.len limited)))
  /\ (screen_text <> EmptyString ->
      Py.len limited = Nat.min (Py.len screen_text) 1500)
  /\ (screen_text = EmptyString ->
      limited = Views.no_screen_content /\ Py.len limited = 27%nat).
Proof.
  intros user_input screen_text limited req r.
  assert (outbox (snd r) = outbox w
          \/ outbox (snd r) = outbox w ++ [req]
             /\ (status_code (fst r) = HTTP_200_OK ->
                 body_screen_context_length (data (fst r))
                   = Some (Z.of_nat (Py.len limited)))) as Hout.
  { subst r.
    destruct (Py.truthy (Py.strip user_input)) eqn:Hu.
    - destruct (configured (environ_OPENAI_API_KEY env)) as [k|] eqn:Hk.
      + right. rewrite (ask_ai_called env w request k Hu Hk).
        fold user_input screen_text limited req.
        destruct (ChatCompletion_create env req) as [content|e].
        * destruct (Py.truthy (Py.strip content)); cbn [fst snd];
            [|split; reflexivity].
          split; [|reflexivity].
          destruct (Py.truthy (default EmptyString (data_session_id request)));
            [|reflexivity].
          rewrite process_command_outbox_rules; [reflexivity|].
          apply ai_analysis_not_ai.
        * destruct e; split; (reflexivity || discriminate).
      + left. unfold Views.ask_ai. fold user_input. rewrite Hu, Hk. reflexivity.
    - left. unfold Views.ask_ai. fold user_input. rewrite Hu. reflexivity. }
  split; [apply limited_within_budget|].
  split; [destruct Hout as [?|[? _]]; auto|].
  split; [|split].
  - intros Hst. destruct Hout as [Hsame|[Hreq Hlen]]; [|auto].
    exfalso. subst r. revert Hst. unfold Views.ask_ai. fold user_input.
    destruct (Py.truthy (Py.strip user_input)) eqn:Hu; [|discriminate].
    destruct (configured (environ_OPENAI_API_KEY env)) as [k|] eqn:Hk;
      [|discriminate].
    intros _. revert Hsame. rewrite (ask_ai_called env w request k Hu Hk).
    fold user_input screen_text limited req.
    assert (forall w0, outbox w0 = outbox w ++ [req] -> outbox w0 <> outbox w)
      as Hne.
    { intros w0 -> E. apply (f_equal (@length _)) in E.
      rewrite length_app in E. cbn in E. lia. }
    destruct (ChatCompletion_create env req) as [content|e].
    + destruct (Py.truthy (Py.strip content)); cbn [snd];
        [|apply Hne; reflexivity].
      destruct (Py.truthy (default EmptyString (data_session_id request)));
        [|apply Hne; reflexivity].
      apply Hne. rewrite process_command_outbox_rules; [reflexivity|].
      apply ai_analysis_not_ai.
    + destruct e; apply Hne; reflexivity.
  - intros Hne. subst limited. destruct screen_text; [congruence|].
    cbn [Py.truthy]. rewrite len_slice_to. apply Nat.min_comm.
  - intros E. subst limited. rewrite E. split; reflexivity.
Qed.


(** C10.  When the completion call of [ask_ai] returns a reply that is
    empty once trimmed, the answer is 200 with the fixed text in place of
    the reply, and neither the command log nor the sessions change,
    whatever session id came with the request. *)
Theorem ask_ai_empty_reply_not_logged `{UUIDField} env w request k content :
  let user_input := default EmptyString (data_user_input request) in
  let screen_text := default EmptyString (data_screen_text request) in
  let limited := if Py.truthy screen_text then Py.slice_to 1500 screen_text
                 else Views.no_screen_content in
  let req := Views.completion_request (Views.build_prompt limited user_input) in
  Py.strip user_input <> EmptyString ->
  configured (environ_OPENAI_API_KEY env) = Some k ->
  ChatCompletion_create env req = Completion content ->
  Py.strip content = EmptyString ->
  let r := Views.ask_ai env w request in
  status_code (fst r) = HTTP_200_OK
  /\ body_response (data (fst r)) = Some Views.empty_reply_text
  /\ body_error (data (fst r)) = None
  /\ command_logs (snd r) = command_logs w
  /\ sessions (snd r) = sessions w
  /\ snd r = sent req w.
Proof.
  intros user_input screen_text limited req Hu Hk Hc He r. subst r.
  apply truthy_true in Hu.
  rewrite (ask_ai_called env w request k Hu Hk).
  fold user_input screen_text limited req. rewrite Hc, He.
  cbn [Py.truthy fst snd]. repeat split.
Qed.

(** * The properties at concrete inputs *)

(** C3 as worded fails: the trimmed form of [" ai: hi"] starts with [ai:],
    so the wording sends it to the AI responder with prompt [hi]; the
    dispatch answers from the rule-based table, logs the row as not
    AI-generated and sends nothing out, although the AI responder was
    ready to answer. *)
Lemma dispatch_leading_space_counterexample :
  let env := env_with (Completion "pong") in
  let r := @CommandService.process_command hex_to_python env world1 sid1
             " ai: hi" in
  spec_classify " ai: hi" = ToAI "hi"
  /\ fst (CommandService._handle_ai_command env world1 "ai: hi") = ("pong", true)
  /\ fst r = (ResponseBody CommandService.fallback_text, 200)
  /\ map is_ai_response (command_logs (snd r)) = [false]
  /\ outbox (snd r) = [].
Proof. vm_compute. repeat split. Qed.

(** C8 as worded fails at the empty screen text: the answer is 200 and the
    reported length is 27, not [min 0 1500]. *)
Lemma ask_ai_empty_screen_counterexample :
  let r := @Views.ask_ai hex_to_python (env_with (Completion "pong")) world1
             (request_of "what is on this page?" "" "") in
  status_code (fst r) = 200
  /\ body_screen_context_length (data (fst r)) = Some 27
  /\ body_screen_context_length (data (fst r))
       <> Some (Z.of_nat (Nat.min (Py.len "") 1500)).
Proof. vm_compute. repeat split. discriminate. Qed.

(** C1 at session 1: an accepted command, then each rejection. *)
Lemma process_command_logs_once_witness :
  let env := env_with (Completion "pong") in
  (exists resp entry w',
      @CommandService.process_command hex_to_python env world1 sid1 "  hello "
        = ((ResponseBody resp, 200), w')
      /\ command_logs w' = command_logs world1 ++ [entry]
      /\ sessions w' = sessions world1
      /\ session entry = session_id session1
      /\ command_text entry = Py.strip "  hello "
      /\ response entry = resp)
  /\ @CommandService.process_command hex_to_python env world1 sid2 "hello"
     = ((ErrorBody "Session not found", 404), world1)
  /\ @CommandService.process_command hex_to_python env world_ended sid1 "hello"
     = ((ErrorBody "Session has ended", 400), world_ended)
  /\ @CommandService.process_command hex_to_python env world1 sid1 "   "
     = ((ErrorBody "Command cannot be empty", 400), world1)
  /\ @CommandService.process_command hex_to_python env world1
       "test-session-123" "hello"
     = ((ErrorBody "Internal server error", 500), world1).
Proof.
  intros env. repeat apply conj.
  - apply (proj1 (@process_command_logs_once hex_to_python env world1 sid1
                    "  hello ") session1).
    + reflexivity.
    + reflexivity.
    + vm_compute. discriminate.
  - destruct (@process_command_logs_once hex_to_python env world1 sid2 "hello")
      as (_ & Habsent & _).
    apply Habsent. reflexivity.
  - destruct (@process_command_logs_once hex_to_python env world_ended sid1
                "hello") as (_ & _ & Hended & _).
    apply (Hended session1_ended); reflexivity.
  - destruct (@process_command_logs_once hex_to_python env world1 sid1 "   ")
      as (_ & _ & _ & Hempty & _).
    apply (Hempty session1); reflexivity.
  - destruct (@process_command_logs_once hex_to_python env world1
                "test-session-123" "hello") as (_ & _ & _ & _ & Hraise).
    apply (Hraise ValidationError). reflexivity.
Defined.

(** C2 on a run that creates, uses and ends session 1 (twice). *)
Lemma session_invariant_witness :
  session_ok session1_ended
  /\ (is_active session1 = true /\ ended_at session1 = None
      /\ sessions world1 !! 1%N = Some (to_row session1))
  /\ (let r := DemoSession_methods.end_session 46000000000 session1 world1 in
      is_active (fst r) = false /\ ended_at (fst r) = Some 46000000000
      /\ sessions (snd r) !! 1%N = Some (to_row (fst r))).
Proof.
  destruct (@session_invariant hex_to_python) as (Hrun & Hcreate & Hend).
  split; [|split].
  - apply (Hrun [CreateSession 1%N 45000000000;
                 ProcessCommand (env_with (Completion "pong")) sid1 "hello";
                 EndSession 46000000000 sid1;
                 EndSession 47000000000 sid1] sid1).
    vm_compute. reflexivity.
  - apply (Hcreate 1%N 45000000000 empty_world session1 world1). reflexivity.
  - apply (Hend 46000000000 session1 world1).
Defined.

(** C6 at session 1: the first call ends it, the second is refused; a
    call on an ended session and a call on an unknown session are refused
    as well. *)
Lemma end_session_idempotent_witness :
  @SessionService.end_session hex_to_python 46000000000 world1 sid1
    = (Ok true, world_ended)
  /\ @SessionService.get_session hex_to_python world_ended sid1
     = Ok (Some session1_ended)
  /\ @SessionService.end_session hex_to_python 47000000000 world_ended sid1
     = (Ok false, world_ended)
  /\ @SessionService.end_session hex_to_python 48000000000 world_ended sid1
     = (Ok false, world_ended)
  /\ @SessionService.end_session hex_to_python 46000000000 world1 sid2
     = (Ok false, world1).
Proof.
  destruct (@end_session_idempotent hex_to_python 46000000000 world1 sid1)
    as (Hfirst & _ & _ & Hsecond).
  destruct (Hfirst session1) as [E G]; [reflexivity | reflexivity |].
  repeat apply conj.
  - exact E.
  - exact G.
  - apply (Hsecond true world_ended 47000000000 E).
  - destruct (@end_session_idempotent hex_to_python 48000000000 world_ended
                sid1) as (_ & _ & Hended & _).
    apply (Hended session1_ended); reflexivity.
  - destruct (@end_session_idempotent hex_to_python 46000000000 world1 sid2)
      as (_ & Habsent & _).
    apply Habsent. reflexivity.
Defined.

(** C3 at three commands: a prefixed one, a plain one, and one with a
    leading blank. *)
Lemma dispatch_classifies_raw_command_witness :
  let env := env_with (Completion "pong") in
  (spec_classify "Ai:  tell me a joke  " = ToAI "tell me a joke"
   /\ outbox (snd (CommandService._handle_ai_command env world1
                     "Ai:  tell me a joke  "))
      = [CommandService.completion_request "tell me a joke"])
  /\ fst (@CommandService.process_command hex_to_python env world1 sid1
            "help me")
     = (ResponseBody CommandService.help_text, 200)
  /\ spec_classify "help me" = ToRules
  /\ Py.startswith "ai:" (Py.lower " ai: hi") = false.
Proof.
  intros env. repeat apply conj.
  - destruct (@dispatch_classifies_raw_command hex_to_python env world1 sid1
                "Ai:  tell me a joke  " session1) as (Hai & _);
      [reflexivity | reflexivity | vm_compute; discriminate |].
    destruct Hai as (_ & Hspec & _); [reflexivity | exact Hspec].
  - destruct (@dispatch_classifies_raw_command hex_to_python env world1 sid1
                "Ai:  tell me a joke  " session1) as (Hai & _);
      [reflexivity | reflexivity | vm_compute; discriminate |].
    destruct Hai as (_ & _ & Hout); [reflexivity|].
    apply (Hout "sk-test"). reflexivity.
  - destruct (@dispatch_classifies_raw_command hex_to_python env world1 sid1
                "help me" session1) as (_ & Hrules & _);
      [reflexivity | reflexivity | vm_compute; discriminate |].
    rewrite Hrules; reflexivity.
  - destruct (@dispatch_classifies_raw_command hex_to_python env world1 sid1
                "help me" session1) as (_ & _ & Hsame & _);
      [reflexivity | reflexivity | vm_compute; discriminate |].
    rewrite Hsame; reflexivity.
  - destruct (@dispatch_classifies_raw_command hex_to_python env world1 sid1
                " ai: hi" session1) as (_ & _ & _ & Hblank);
      [reflexivity | reflexivity | vm_compute; discriminate |].
    apply Hblank. vm_compute. discriminate.
Defined.

(** C4 with a completion call that raises, and with no key at all. *)
Lemma ai_failure_is_absorbed_witness :
  (exists entry w',
      @CommandService.process_command hex_to_python
        (env_with (Raises (APIError "upstream down"))) world1 sid1 "ai: hi"
        = ((ResponseBody "AI service error: upstream down", 200), w')
      /\ command_logs w' = command_logs world1 ++ [entry]
      /\ sessions w' = sessions world1
      /\ command_text entry = Py.strip "ai: hi"
      /\ response entry = "AI service error: upstream down"
      /\ is_ai_response entry = false)
  /\ (exists entry w',
      @CommandService.process_command hex_to_python env_unconfigured world1
        sid1 "AI: hi"
        = ((ResponseBody "AI service not configured", 200), w')
      /\ command_logs w' = command_logs world1 ++ [entry]
      /\ sessions w' = sessions world1
      /\ command_text entry = Py.strip "AI: hi"
      /\ response entry = "AI service not configured"
      /\ is_ai_response entry = false).
Proof.
  split.
  - apply (@ai_failure_is_absorbed hex_to_python
             (env_with (Raises (APIError "upstream down"))) world1 sid1 "ai: hi"
             session1).
    + reflexivity.
    + reflexivity.
    + vm_compute. discriminate.
    + reflexivity.
    + right. exists "sk-test", (APIError "upstream down"). repeat split.
  - apply (@ai_failure_is_absorbed hex_to_python env_unconfigured world1 sid1
             "AI: hi" session1).
    + reflexivity.
    + reflexivity.
    + vm_compute. discriminate.
    + reflexivity.
    + left. split; reflexivity.
Defined.

(** C5 at one command per row of the table. *)
Lemma rule_based_responder_table_witness :
  let env := env_with (Completion "pong") in
  fst (CommandService._handle_dummy_command env "Oh HELLO, what time is it?")
    = CommandService.greeting
  /\ fst (CommandService._handle_dummy_command env "What TIME is it?")
     = "The current time is 12:34:56"
  /\ fst (CommandService._handle_dummy_command env "I need Help")
     = CommandService.help_text
  /\ fst (CommandService._handle_dummy_command env "open the pod bay doors")
     = CommandService.fallback_text
  /\ CommandService._handle_dummy_command env "WHAT TIME IS IT?"
     = CommandService._handle_dummy_command env "what time is it?"
  /\ (exists entry w',
      @CommandService.process_command hex_to_python env world1 sid1
        "I need Help" = ((ResponseBody CommandService.help_text, 200), w')
      /\ command_logs w' = command_logs world1 ++ [entry]
      /\ response entry = CommandService.help_text
      /\ is_ai_response entry = false).
Proof.
  intros env. repeat apply conj.
  - destruct (@rule_based_responder_table hex_to_python env
                "Oh HELLO, what time is it?") as (_ & Hhello & _).
    apply Hhello. reflexivity.
  - destruct (@rule_based_responder_table hex_to_python env
                "What TIME is it?") as (_ & _ & Htime & _).
    destruct Htime as [E _]; [reflexivity | reflexivity | exact E].
  - destruct (@rule_based_responder_table hex_to_python env "I need Help")
      as (_ & _ & _ & Hhelp & _).
    apply Hhelp; reflexivity.
  - destruct (@rule_based_responder_table hex_to_python env
                "open the pod bay doors") as (_ & _ & _ & _ & Hfall & _).
    apply Hfall; reflexivity.
  - destruct (@rule_based_responder_table hex_to_python env
                "what time is it?") as (_ & _ & _ & _ & _ & Hcase & _).
    apply Hcase. reflexivity.
  - destruct (@rule_based_responder_table hex_to_python env "I need Help")
      as (_ & _ & _ & _ & _ & _ & Hdispatch).
    apply (Hdispatch world1 sid1 session1).
    + reflexivity.
    + reflexivity.
    + vm_compute. discriminate.
    + reflexivity.
Defined.


(** C8 at a screen text of 2000 characters and at the empty one. *)
Lemma ask_ai_context_budget_witness :
  let env := env_with (Completion "pong") in
  body_screen_context_length
    (data (fst (@Views.ask_ai hex_to_python env world1
                  (request_of "what is on this page?" long_screen_text ""))))
    = Some 1500
  /\ (let limited := if Py.truthy "" then Py.slice_to 1500 ""
                     else Views.no_screen_content in
      limited = Views.no_screen_content /\ Py.len limited = 27%nat).
Proof.
  intros env. split.
  - destruct (@ask_ai_context_budget hex_to_python env world1
                (request_of "what is on this page?" long_screen_text ""))
      as (_ & _ & Hok & Hlen & _).
    destruct Hok as [_ E]; [reflexivity|].
    rewrite E, Hlen; [reflexivity|].
    vm_compute. discriminate.
  - destruct (@ask_ai_context_budget hex_to_python env world1
                (request_of "what is on this page?" "" ""))
      as (_ & _ & _ & _ & Hempty).
    apply Hempty. reflexivity.
Defined.



(** C10 with a reply of two blanks and a session id in the request. *)
Lemma ask_ai_empty_reply_not_logged_witness :
  let r := @Views.ask_ai hex_to_python (env_with (Completion "  ")) world1
             (request_of "what is on this page?" "Dashboard" sid1) in
  status_code (fst r) = 200
  /\ body_response (data (fst r)) = Some Views.empty_reply_text
  /\ command_logs (snd r) = command_logs world1.
Proof.
  destruct (@ask_ai_empty_reply_not_logged hex_to_python (env_with (Completion "  "))
              world1 (request_of "what is on this page?" "Dashboard" sid1)
              "sk-test" "  ") as (Hst & Hbody & _ & Hlogs & _).
  - vm_compute. discriminate.
  - reflexivity.
  - reflexivity.
  - reflexivity.
  - auto.
Defined.

(** * Further properties of the services, the views and the admin *)

(** ** Trimming *)

Section StripFacts.

Import Py.

Lemma lstrip_idem s : lstrip (lstrip s) = lstrip s.
Proof.
  induction s as [|c t IH]; [reflexivity|]. cbn [lstrip].
  destruct (isspace c) eqn:E; [exact IH|]. cbn [lstrip]. rewrite E. reflexivity.
Qed.

Lemma strip_idem s : strip (strip s) = strip s.
Proof.
  unfold strip. rewrite lstrip_rstrip, lstrip_idem, rstrip_idem. reflexivity.
Qed.

Lemma lstrip_strip s : lstrip (strip s) = strip s.
Proof. unfold strip. rewrite lstrip_rstrip, lstrip_idem. reflexivity. Qed.

Lemma strip_keeps_ai s :
  startswith "ai:" (lower s) = true ->
  startswith "ai:" (lower (strip s)) = true.
Proof.
  intros Hp. destruct (startswith_ai_inv _ Hp) as (c1 & c2 & rest & -> & H1).
  rewrite (strip_ai_prefixed c1 c2 rest H1).
  cbn [lower startswith] in Hp |- *.
  destruct (ascii_dec "a" (lower_char c1)); [|discriminate].
  destruct (ascii_dec "i" (lower_char c2)); [|discriminate]. reflexivity.
Qed.

Lemma slice_to_idem n s : slice_to n (slice_to n s) = slice_to n s.
Proof.
  revert s; induction n as [|n IH]; intros [|c t]; cbn [slice_to];
    try reflexivity. rewrite IH. reflexivity.
Qed.

Lemma truthy_slice_to n s : truthy (slice_to (S n) s) = truthy s.
Proof. destruct s; reflexivity. Qed.

Lemma len_append s t : len (s +:+ t) = (len s + len t)%nat.
Proof.
  unfold len. induction s as [|c s IH]; [reflexivity|].
  change (String c s +:+ t) with (String c (s +:+ t)).
  cbn [String.length]. rewrite IH. reflexivity.
Qed.

End StripFacts.

(** ** What a request does to the log *)

Section LogFacts.

Context `{UUIDField}.

Lemma handle_dummy_flag env command :
  snd (CommandService._handle_dummy_command env command) = false.
Proof.
  unfold CommandService._handle_dummy_command.
  destruct (Py.contains "hello" _); [reflexivity|].
  destruct (Py.contains "time" _); [reflexivity|].
  destruct (Py.contains "help" _); reflexivity.
Qed.

Lemma get_session_sent req w sid :
  SessionService.get_session (sent req w) sid
  = SessionService.get_session w sid.
Proof. reflexivity. Qed.

(** A dispatch leaves the log as it was or adds the one row of an accepted
    command. *)
Lemma process_command_log env w sid command :
  let w' := snd (CommandService.process_command env w sid command) in
  command_logs w' = command_logs w
  \/ exists s resp is_ai,
      SessionService.get_session w sid = Ok (Some s)
      /\ is_active s = true
      /\ Py.strip command <> EmptyString
      /\ (is_ai = true -> Py.startswith "ai:" (Py.lower command) = true)
      /\ (Py.startswith "ai:" (Py.lower command) = false ->
          resp = fst (CommandService._handle_dummy_command env command))
      /\ command_logs w'
         = command_logs w ++ [dispatched_row env w s command resp is_ai].
Proof.
  cbv zeta.
  destruct (SessionService.get_session w sid) as [[s|]|e] eqn:Hs.
  - destruct (is_active s) eqn:Ha.
    + destruct (decide (Py.strip command = EmptyString)) as [Hc|Hc].
      * left. rewrite (process_command_empty env _ _ _ _ Hs Ha Hc). reflexivity.
      * right. rewrite (process_command_accepted env _ _ _ _ Hs Ha Hc).
        cbv zeta. cbn [snd CommandLog_objects.create command_logs].
        destruct (Py.startswith "ai:" (Py.lower command)) eqn:Hp.
        -- destruct (handle_ai_store env w command) as [_ El].
           destruct (CommandService._handle_ai_command env w command)
             as [[resp is_ai] w1]. cbn [fst snd] in El |- *.
           exists s, resp, is_ai. rewrite El.
           repeat split; auto; discriminate.
        -- pose proof (handle_dummy_flag env command) as Hf.
           destruct (CommandService._handle_dummy_command env command)
             as [resp is_ai]. cbn [fst snd] in Hf |- *. subst is_ai.
           exists s, resp, false. repeat split; auto; discriminate.
    + left. unfold CommandService.process_command. rewrite Hs, Ha. reflexivity.
  - left. unfold CommandService.process_command. rewrite Hs. reflexivity.
  - left. unfold CommandService.process_command. rewrite Hs. reflexivity.
Qed.

(** The log after [ask_ai]: untouched, or with the one row of the
    best-effort dispatch of [AI Analysis: <user input>]. *)
Lemma ask_ai_log env w request :
  let user_input := default EmptyString (data_user_input request) in
  let sid := default EmptyString (data_session_id request) in
  let command := "AI Analysis: " +:+ user_input in
  let w' := snd (Views.ask_ai env w request) in
  command_logs w' = command_logs w
  \/ exists s,
      SessionService.get_session w sid = Ok (Some s)
      /\ is_active s = true
      /\ Py.strip command <> EmptyString
      /\ command_logs w'
         = command_logs w
           ++ [dispatched_row env w s command
                 (fst (CommandService._handle_dummy_command env command))
                 false].
Proof.
  intros user_input sid command. cbv zeta. unfold Views.ask_ai.
  fold user_input sid.
  destruct (negb (Py.truthy (Py.strip user_input))); [left; reflexivity|].
  destruct (configured _) as [k|]; [|left; reflexivity].
  set (req := Views.completion_request _).
  destruct (ChatCompletion_create env req) as [content|e].
  - destruct (negb (Py.truthy (Py.strip content))); [left; reflexivity|].
    cbn [snd]. destruct (Py.truthy sid); [|left; reflexivity].
    fold command.
    destruct (process_command_log env (sent req w) sid command)
      as [E|(s & resp & is_ai & Hs & Ha & Hc & Hai & Hresp & E)].
    + left. exact E.
    + right. exists s. rewrite get_session_sent in Hs.
      repeat split; try assumption.
      rewrite E. cbn [sent command_logs]. f_equal. f_equal.
      assert (Py.startswith "ai:" (Py.lower command) = false) as Hp
        by apply ai_analysis_not_ai.
      rewrite (Hresp Hp). destruct is_ai; [|reflexivity].
      rewrite (Hai eq_refl) in Hp. discriminate.
  - destruct e; left; reflexivity.
Qed.

Lemma step_sessions_grow w o u :
  is_Some (sessions w !! u) -> is_Some (sessions (step w o) !! u).
Proof.
  intros Hu.
  destruct o as [u' now|now sid|env sid command|sid|env request]; cbn [step].
  - unfold SessionService.create_session, DemoSession_objects.create.
    destruct (sessions w !! u') eqn:E; [exact Hu|]. cbn.
    rewrite lookup_insert_ne; [exact Hu|]. intros ->. rewrite E in Hu.
    destruct Hu; discriminate.
  - unfold SessionService.end_session.
    destruct (SessionService.get_session w sid) as [[s|]|e] eqn:Hs;
      try exact Hu.
    destruct (is_active s); [|exact Hu]. cbn.
    rewrite lookup_insert. case_decide; [eauto | exact Hu].
  - rewrite process_command_sessions. exact Hu.
  - unfold TranscriptService.get_session_transcript.
    destruct (SessionService.get_session w sid) as [[s|]|e]; exact Hu.
  - rewrite ask_ai_sessions. exact Hu.
Qed.

(** Every request leaves the log as it was or adds one dispatched row. *)
Lemma step_log w o :
  command_logs (step w o) = command_logs w
  \/ exists env s command resp is_ai,
      op_env o = Some env
      /\ is_Some (sessions w !! session_id s)
      /\ Py.strip command <> EmptyString
      /\ (is_ai = true -> Py.startswith "ai:" (Py.lower command) = true)
      /\ command_logs (step w o)
         = command_logs w ++ [dispatched_row env w s command resp is_ai].
Proof.
  destruct o as [u' now|now sid|env sid command|sid|env request]; cbn [step].
  - left. unfold SessionService.create_session, DemoSession_objects.create.
    destruct (sessions w !! u'); reflexivity.
  - left. unfold SessionService.end_session.
    destruct (SessionService.get_session w sid) as [[s|]|e]; try reflexivity.
    destruct (is_active s); reflexivity.
  - destruct (process_command_log env w sid command)
      as [E|(s & resp & is_ai & Hs & Ha & Hc & Hai & _ & E)]; [left; exact E|].
    right. exists env, s, command, resp, is_ai. repeat split; try assumption.
    apply get_session_found in Hs as (u & r & _ & Hr & ->). cbn. eauto.
  - left. unfold TranscriptService.get_session_transcript.
    destruct (SessionService.get_session w sid) as [[s|]|e]; reflexivity.
  - destruct (ask_ai_log env w request) as [E|(s & Hs & Ha & Hc & E)];
      [left; exact E|].
    right. eexists env, s, _, _, false. repeat split; try eassumption.
    + apply get_session_found in Hs as (u & r & _ & Hr & ->). cbn. eauto.
    + discriminate.
Qed.

Lemma row_ok_step w o c : row_ok w c -> row_ok (step w o) c.
Proof.
  intros (Hs & Hrest). split; [apply step_sessions_grow, Hs | exact Hrest].
Qed.

Lemma step_log_ok w o : log_ok w -> log_ok (step w o).
Proof.
  intros [Hrows Hids].
  destruct (step_log w o)
    as [E|(env & s & command & resp & is_ai & _ & Hs & Hc & Hai & E)].
  - split.
    + rewrite E. eapply Forall_impl; [exact Hrows|].
      intros c. apply row_ok_step.
    + unfold ids_ok. rewrite E. exact Hids.
  - split.
    + rewrite E. apply Forall_app. split.
      * eapply Forall_impl; [exact Hrows|]. intros c. apply row_ok_step.
      * constructor; [|constructor].
        split; [apply step_sessions_grow; exact Hs|]. cbn.
        split; [exact Hc|]. split; [apply strip_idem|].
        intros ->. apply strip_keeps_ai, Hai. reflexivity.
    + unfold ids_ok in *. rewrite E, length_app, map_app. cbn [length map].
      rewrite Nat.add_1_r, seq_S, map_app, <- Hids. reflexivity.
Qed.

Lemma run_log_ok ops : forall w, log_ok w -> log_ok (run w ops).
Proof.
  induction ops as [|o ops IH]; intros w Hw; [exact Hw|].
  cbn [run fold_left]. apply IH, step_log_ok, Hw.
Qed.

Lemma empty_world_log_ok : log_ok empty_world.
Proof. split; [constructor | reflexivity]. Qed.

End LogFacts.

(** ** The log under a clock that does not go back *)

Section ClockFacts.

Context `{UUIDField}.



End ClockFacts.

(** ** Properties of the services over whole runs *)

(** X1.  Ended is terminal: once a session is stored as ended, no sequence
    of requests changes what a lookup of it returns. *)
Theorem ended_is_terminal `{UUIDField} w sid s ops :
  SessionService.get_session w sid = Ok (Some s) ->
  is_active s = false ->
  SessionService.get_session (run w ops) sid = Ok (Some s).
Proof.
  intros Hs Ha. apply get_session_found in Hs as (u & r & Hu & Hr & ->).
  unfold SessionService.get_session, DemoSession_objects.get. rewrite Hu.
  rewrite (run_keeps_ended ops w u r Hr Ha). reflexivity.
Qed.

(** X3.  The store only grows: over any sequence of requests the log keeps
    its rows, in place and unchanged, in front of the new ones, and no
    session disappears. *)
Theorem log_is_append_only `{UUIDField} ops w :
  (exists added, command_logs (run w ops) = command_logs w ++ added)
  /\ (forall u, is_Some (sessions w !! u) ->
      is_Some (sessions (run w ops) !! u)).
Proof.
  revert w. induction ops as [|o ops IH]; intros w.
  - split; [exists []; symmetry; apply app_nil_r | auto].
  - change (run w (o :: ops)) with (run (step w o) ops).
    destruct (IH (step w o)) as [[added E] Hgrow]. split.
    + destruct (step_log w o)
        as [E'|(env & s & command & resp & is_ai & _ & _ & _ & _ & E')];
        rewrite E' in E.
      * exists added. exact E.
      * eexists. rewrite E, <- app_assoc. reflexivity.
    + intros u Hu. apply Hgrow, step_sessions_grow, Hu.
Qed.

(** X4.  Every row that the requests write is well formed: its session
    exists in the store, and its command is not empty and carries no white
    space at either end. *)
Theorem logged_rows_are_well_formed `{UUIDField} ops c :
  In c (command_logs (run empty_world ops)) ->
  is_Some (sessions (run empty_world ops) !! session c)
  /\ command_text c <> EmptyString
  /\ Py.strip (command_text c) = command_text c.
Proof.
  intros Hin.
  destruct (run_log_ok ops empty_world empty_world_log_ok) as [Hrows _].
  rewrite List.Forall_forall in Hrows.
  destruct (Hrows c Hin) as (? & ? & ? & _). auto.
Qed.

(** X5.  A row is marked as AI-generated only when its command carries the
    [ai:] prefix; the row that [ask_ai] logs is never marked. *)
Theorem ai_rows_carry_the_prefix `{UUIDField} ops c :
  In c (command_logs (run empty_world ops)) ->
  is_ai_response c = true ->
  Py.startswith "ai:" (Py.lower (command_text c)) = true.
Proof.
  intros Hin.
  destruct (run_log_ok ops empty_world empty_world_log_ok) as [Hrows _].
  rewrite List.Forall_forall in Hrows.
  destruct (Hrows c Hin) as (_ & _ & _ & Hai). exact Hai.
Qed.

(** In the model of the id column the ids of the rows count up from 1 in
    insertion order, so no two rows share an id. *)
Lemma log_ids_count_up `{UUIDField} ops :
  let rows := command_logs (run empty_world ops) in
  (forall i c, rows !! i = Some c -> log_id c = Z.of_nat i + 1)
  /\ NoDup (map log_id rows).
Proof.
  intros rows.
  destruct (run_log_ok ops empty_world empty_world_log_ok) as [_ Hids].
  unfold ids_ok in Hids. fold rows in Hids. split.
  - intros i c Hi.
    assert (map log_id rows !! i = Some (log_id c)) as Hm
      by (rewrite list_lookup_fmap, Hi; reflexivity).
    rewrite Hids, list_lookup_fmap in Hm.
    destruct (seq 0 (length rows) !! i) as [j|] eqn:Hj; [|discriminate].
    apply lookup_seq in Hj as [-> _]. cbn in Hm. congruence.
  - rewrite Hids. apply NoDup_fmap_2; [|apply NoDup_seq].
    intros a b Hab. lia.
Qed.


Section EndedFacts.

Context `{UUIDField}.

Lemma rows_of_other u w row :
  session row <> u ->
  List.filter (CommandLog_objects.of_session u) (command_logs w ++ [row])
  = rows_of u w.
Proof.
  intros Hne. rewrite List.filter_app. cbn [List.filter].
  unfold CommandLog_objects.of_session at 2.
  rewrite bool_decide_eq_false_2 by exact Hne. apply app_nil_r.
Qed.

Lemma active_session_differs w sid s u r :
  SessionService.get_session w sid = Ok (Some s) ->
  is_active s = true ->
  sessions w !! u = Some r -> row_is_active r = false ->
  session_id s <> u.
Proof.
  intros Hs Ha Hr Hend.
  apply get_session_found in Hs as (u' & r' & _ & Hr' & ->).
  cbn in Ha |- *. intros ->. congruence.
Qed.

(** No request adds a row to an ended session. *)
Lemma step_keeps_rows_of_ended w o u r :
  sessions w !! u = Some r -> row_is_active r = false ->
  rows_of u (step w o) = rows_of u w.
Proof.
  intros Hr Hend.
  destruct o as [u' now|now sid|env sid command|sid|env request]; cbn [step].
  - unfold SessionService.create_session, DemoSession_objects.create.
    destruct (sessions w !! u'); reflexivity.
  - unfold SessionService.end_session.
    destruct (SessionService.get_session w sid) as [[s|]|e]; try reflexivity.
    destruct (is_active s); reflexivity.
  - destruct (process_command_log env w sid command)
      as [E|(s & resp & is_ai & Hs & Ha & _ & _ & _ & E)];
      unfold rows_of at 1; rewrite E; [reflexivity|].
    apply rows_of_other. cbn.
    apply (active_session_differs w sid s u r Hs Ha Hr Hend).
  - unfold TranscriptService.get_session_transcript.
    destruct (SessionService.get_session w sid) as [[s|]|e]; reflexivity.
  - destruct (ask_ai_log env w request) as [E|(s & Hs & Ha & _ & E)];
      unfold rows_of at 1; rewrite E; [reflexivity|].
    apply rows_of_other. cbn.
    apply (active_session_differs w _ s u r Hs Ha Hr Hend).
Qed.

Lemma run_keeps_rows_of_ended ops : forall w u r,
  sessions w !! u = Some r -> row_is_active r = false ->
  rows_of u (run w ops) = rows_of u w.
Proof.
  induction ops as [|o ops IH]; intros w u r Hr Hend; [reflexivity|].
  change (run w (o :: ops)) with (run (step w o) ops).
  rewrite (IH (step w o) u r); [|apply step_keeps_ended; assumption|exact Hend].
  apply (step_keeps_rows_of_ended w o u r Hr Hend).
Qed.

End EndedFacts.

(** X2.  An ended session takes no more commands: whatever requests
    follow, a dispatch for it is refused with 400 and the store as it was,
    and the rows of its transcript stay the ones it had when it ended. *)
Theorem ended_session_is_frozen `{UUIDField} w sid s ops env command :
  SessionService.get_session w sid = Ok (Some s) ->
  is_active s = false ->
  let w' := run w ops in
  CommandService.process_command env w' sid command
    = ((ErrorBody "Session has ended", 400), w')
  /\ rows_of (session_id s) w' = rows_of (session_id s) w.
Proof.
  intros Hs Ha w'.
  pose proof Hs as Hs0.
  apply get_session_found in Hs as (u & r & Hu & Hr & ->).
  assert (SessionService.get_session w' sid = Ok (Some (of_row u r))) as Hs'.
  { unfold SessionService.get_session, DemoSession_objects.get. rewrite Hu.
    subst w'. rewrite (run_keeps_ended ops w u r Hr Ha). reflexivity. }
  split.
  - unfold CommandService.process_command. rewrite Hs'.
    cbn in Ha |- *. rewrite Ha. reflexivity.
  - apply (run_keeps_rows_of_ended ops w u r Hr Ha).
Qed.

(** ** The completion service: when it is called, and with what *)


(** ** ask_ai: what the answer depends on *)

Section AskAiMore.

Context `{UUIDField}.

Lemma strip_nonspace_head c t :
  Py.isspace c = false -> Py.strip (String c t) <> EmptyString.
Proof.
  intros Hc. unfold Py.strip. cbn [Py.lstrip]. rewrite Hc, rstrip_cons, Hc.
  rewrite orb_true_r. discriminate.
Qed.

Lemma strip_ai_analysis u : Py.strip ("AI Analysis: " +:+ u) <> EmptyString.
Proof. apply (strip_nonspace_head "A"). reflexivity. Qed.

End AskAiMore.

(** X9.  [ask_ai] reads no more than the first 1500 characters of the
    screen text: cutting the text there beforehand changes neither the
    answer nor the resulting store nor the request that goes out. *)
Theorem ask_ai_reads_only_the_budget `{UUIDField} env w request :
  Views.ask_ai env w request
  = Views.ask_ai env w
      {| data_user_input := data_user_input request;
         data_screen_text := option_map (Py.slice_to 1500)
                               (data_screen_text request);
         data_session_id := data_session_id request |}.
Proof.
  assert ((if Py.truthy (default EmptyString
                           (option_map (Py.slice_to 1500)
                              (data_screen_text request)))
           then Py.slice_to 1500
                  (default EmptyString
                     (option_map (Py.slice_to 1500) (data_screen_text request)))
           else Views.no_screen_content)
          = (if Py.truthy (default EmptyString (data_screen_text request))
             then Py.slice_to 1500 (default EmptyString (data_screen_text request))
             else Views.no_screen_content)) as Hlim.
  { destruct (data_screen_text request) as [s|]; [|reflexivity].
    cbn [option_map from_option id].
    rewrite (truthy_slice_to 1499), slice_to_idem.
    reflexivity. }
  unfold Views.ask_ai.
  cbn [data_user_input data_screen_text data_session_id].
  rewrite Hlim. reflexivity.
Qed.

(** X10.  The answer of [ask_ai] does not depend on the logging: two
    requests with the same user input and screen text get the same
    response whatever their session ids and whatever the store holds. *)
Theorem ask_ai_answer_ignores_logging `{UUIDField} env w w' request request' :
  data_user_input request = data_user_input request' ->
  data_screen_text request = data_screen_text request' ->
  fst (Views.ask_ai env w request) = fst (Views.ask_ai env w' request').
Proof.
  intros Eu Es. unfold Views.ask_ai. rewrite <- Eu, <- Es.
  destruct (negb (Py.truthy (Py.strip _))); [reflexivity|].
  destruct (configured _) as [k|]; [|reflexivity].
  destruct (ChatCompletion_create _ _) as [content|e].
  - destruct (negb (Py.truthy (Py.strip content))); reflexivity.
  - destruct e; reflexivity.
Qed.

(** X11.  When [ask_ai] succeeds for a request that names an active
    session, the caller gets the trimmed reply of the completion service,
    while the one row added to the log holds the command
    [AI Analysis: <user input>] with the answer of the rule-based
    responder to it, not marked as AI-generated; one request went out. *)
Theorem ask_ai_logs_the_question `{H : UUIDField} env w request k content s :
  let user_input := default EmptyString (data_user_input request) in
  let screen_text := default EmptyString (data_screen_text request) in
  let sid := default EmptyString (data_session_id request) in
  let limited := if Py.truthy screen_text then Py.slice_to 1500 screen_text
                 else Views.no_screen_content in
  let req := Views.completion_request (Views.build_prompt limited user_input) in
  let command := "AI Analysis: " +:+ user_input in
  Py.strip user_input <> EmptyString ->
  configured (environ_OPENAI_API_KEY env) = Some k ->
  ChatCompletion_create env req = Completion content ->
  Py.strip content <> EmptyString ->
  sid <> EmptyString ->
  SessionService.get_session w sid = Ok (Some s) ->
  is_active s = true ->
  let r := Views.ask_ai env w request in
  status_code (fst r) = 200
  /\ body_response (data (fst r)) = Some (Py.strip content)
  /\ command_logs (snd r)
     = command_logs w
       ++ [dispatched_row env w s command
             (fst (CommandService._handle_dummy_command env command)) false]
  /\ outbox (snd r) = outbox w ++ [req].
Proof.
  intros user_input screen_text sid limited req command Hu Hk Hc Hr Hsid Hs Ha r.
  subst r. apply truthy_true in Hu. apply truthy_true in Hr.
  apply truthy_true in Hsid.
  rewrite (ask_ai_called env w request k Hu Hk).
  fold user_input screen_text sid limited req command.
  rewrite Hc, Hr, Hsid. cbn [fst snd].
  rewrite (@process_command_accepted H env (sent req w) sid command s Hs Ha
             (strip_ai_analysis user_input)).
  rewrite (ai_analysis_not_ai user_input
           : Py.startswith "ai:" (Py.lower command) = false). cbv zeta.
  pose proof (handle_dummy_flag env command) as Hf.
  destruct (CommandService._handle_dummy_command env command) as [resp b].
  cbn in Hf. subst b. repeat split.
Qed.

(** X12.  When the completion call of [ask_ai] raises, the response is one
    of five fixed ones, chosen by the class of the exception alone (the
    text of the exception is not passed on), and the sessions and the log
    are as before. *)
Theorem ask_ai_failures_are_canned `{UUIDField} env w request k e :
  let user_input := default EmptyString (data_user_input request) in
  let screen_text := default EmptyString (data_screen_text request) in
  let limited := if Py.truthy screen_text then Py.slice_to 1500 screen_text
                 else Views.no_screen_content in
  let req := Views.completion_request (Views.build_prompt limited user_input) in
  Py.strip user_input <> EmptyString ->
  configured (environ_OPENAI_API_KEY env) = Some k ->
  ChatCompletion_create env req = Raises e ->
  let r := Views.ask_ai env w request in
  In (fst r)
    [Views.fallback Views.rate_limit_text "Rate limit exceeded" 429;
     Views.fallback Views.invalid_request_text "Invalid request" 400;
     Views.fallback Views.auth_failed_text "Authentication failed" 500;
     Views.fallback Views.api_error_text "API error" 503;
     Views.fallback Views.unexpected_text "Internal server error" 500]
  /\ snd r = sent req w.
Proof.
  intros user_input screen_text limited req Hu Hk He r. subst r.
  apply truthy_true in Hu.
  rewrite (ask_ai_called env w request k Hu Hk).
  fold user_input screen_text limited req. rewrite He.
  destruct e; cbn [fst snd In]; auto 10.
Qed.

(** ** The class-based views *)

Section ViewFacts.

Context `{UUIDField}.

Lemma get_session_key w sid u :
  to_python sid = Some u ->
  SessionService.get_session w sid
  = Ok (option_map (of_row u) (sessions w !! u)).
Proof.
  intros Hu. unfold SessionService.get_session, DemoSession_objects.get.
  rewrite Hu. destruct (sessions w !! u); reflexivity.
Qed.

(** On a command without leading white space the prefix test of the code
    and the classification on the trimmed command agree. *)
Lemma classify_without_leading_space c :
  Py.lstrip c = c ->
  spec_classify c
  = if Py.startswith "ai:" (Py.lower c)
    then ToAI (Py.strip (Py.slice_from 3 c)) else ToRules.
Proof.
  intros Hl. unfold spec_classify. rewrite (lstrip_fixed_strip _ Hl).
  destruct (Py.startswith "ai:" (Py.lower c)) eqn:Hp.
  - destruct (startswith_ai_inv _ Hp) as (c1 & c2 & rest & -> & H1).
    rewrite <- (lstrip_fixed_strip _ Hl), (strip_ai_prefixed c1 c2 rest H1).
    cbn [Py.lower Py.startswith] in Hp |- *.
    destruct (ascii_dec "a" (Py.lower_char c1)); [|discriminate].
    destruct (ascii_dec "i" (Py.lower_char c2)); [|discriminate].
    cbn [Py.slice_from]. rewrite strip_rstrip. reflexivity.
  - destruct (Py.startswith "ai:" (Py.lower (Py.rstrip c))) eqn:Hq;
      [|reflexivity].
    apply startswith_lower_rstrip in Hq. congruence.
Qed.

Lemma validate_command_some value c :
  CommandRequestSerializer.validate_command value = Some c ->
  c = Py.strip value /\ c <> EmptyString.
Proof.
  unfold CommandRequestSerializer.validate_command.
  destruct (Py.truthy value); cbn [negb orb]; [|discriminate].
  destruct (Py.truthy (Py.strip value)) eqn:E; cbn [negb]; [|discriminate].
  intros [= <-]. split; [reflexivity|]. apply truthy_true, E.
Qed.

(** A dispatch of a command that is trimmed and not empty never answers
    that the command is empty. *)
Lemma process_command_not_empty env w sid c :
  Py.strip c <> EmptyString ->
  fst (fst (CommandService.process_command env w sid c))
  <> ErrorBody "Command cannot be empty".
Proof.
  intros Hc.
  destruct (SessionService.get_session w sid) as [[s|]|e] eqn:Hs.
  - destruct (is_active s) eqn:Ha.
    + rewrite (process_command_accepted env _ _ _ _ Hs Ha Hc). discriminate.
    + unfold CommandService.process_command. rewrite Hs, Ha. discriminate.
  - unfold CommandService.process_command. rewrite Hs. discriminate.
  - unfold CommandService.process_command. rewrite Hs. discriminate.
Qed.

End ViewFacts.

(** X13.  What the send-command view hands to the dispatcher is trimmed
    and not empty, whatever the text field let through: the dispatcher
    never answers such a request with "Command cannot be empty", and its
    prefix test on the text agrees with the classification on the trimmed
    command.  A request that the serializer refuses is answered 400 with
    the failing fields and leaves the store as it was. *)
Theorem send_command_delivers_trimmed `{UUIDField} `{UUIDStr} `{RestFields}
    env w data :
  (forall errors,
      CommandRequestSerializer.is_valid data = inl errors ->
      SendCommandView.post env w data
        = ((InvalidBody "Invalid request data" errors, 400), w)
      /\ errors <> [])
  /\ (forall v,
      CommandRequestSerializer.is_valid data = inr v ->
      let c := validated_command v in
      c <> EmptyString
      /\ Py.strip c = c
      /\ spec_classify c
         = (if Py.startswith "ai:" (Py.lower c)
            then ToAI (Py.strip (Py.slice_from 3 c)) else ToRules)
      /\ fst (fst (SendCommandView.post env w data))
         <> CommandBody (ErrorBody "Command cannot be empty")).
Proof.
  split.
  - intros errors He. unfold SendCommandView.post. rewrite He.
    split; [reflexivity|]. revert He.
    unfold CommandRequestSerializer.is_valid.
    destruct (CommandRequestSerializer.session_id_field data),
      (CommandRequestSerializer.command_field data);
      intros [= <-]; discriminate.
  - intros v Hv c.
    assert (exists value, c = Py.strip value /\ c <> EmptyString)
      as (value & Ec & Hne).
    { revert Hv. unfold CommandRequestSerializer.is_valid.
      destruct (CommandRequestSerializer.session_id_field data) as [u|];
        [|destruct (CommandRequestSerializer.command_field data);
          discriminate].
      destruct (CommandRequestSerializer.command_field data) as [c'|] eqn:Hf;
        [|discriminate].
      intros [= <-]. subst c. cbn [validated_command].
      revert Hf. unfold CommandRequestSerializer.command_field.
      destruct (data_command data) as [raw|]; [|discriminate].
      destruct (rest_CharField 1000 1 raw) as [value|]; [|discriminate].
      intros Hval. exists value. apply validate_command_some, Hval. }
    assert (Py.strip c = c) as Hs by (rewrite Ec; apply strip_idem).
    split; [exact Hne|]. split; [exact Hs|]. split.
    + apply classify_without_leading_space.
      rewrite <- Hs. apply lstrip_strip.
    + unfold SendCommandView.post. rewrite Hv. fold c.
      pose proof (process_command_not_empty env w
                    (str_uuid (validated_session_id v)) c) as Hn.
      destruct (CommandService.process_command env w
                  (str_uuid (validated_session_id v)) c) as [[p st] w'].
      cbn [fst] in Hn |- *. intros [= E]. apply Hn; [|exact E].
      rewrite Hs. exact Hne.
Qed.

(** X14.  Ending a session through the view answers 200 exactly when the
    session exists and is active, and 404 otherwise; a second call is
    answered 404 and changes nothing. *)
Theorem end_session_view_once `{UUIDField} `{UUIDStr} now now' w u :
  to_python (str_uuid u) = Some u ->
  let r1 := EndSessionView.post now w u in
  let r2 := EndSessionView.post now' (snd r1) u in
  (fst r1 = (MessageBody "Session ended successfully", 200)
   \/ fst r1 = (FailedBody "Session not found or already ended", 404))
  /\ (fst r1 = (MessageBody "Session ended successfully", 200)
      <-> exists r, sessions w !! u = Some r /\ row_is_active r = true)
  /\ fst r2 = (FailedBody "Session not found or already ended", 404)
  /\ snd r2 = snd r1.
Proof.
  intros Hu r1 r2. subst r1 r2. unfold EndSessionView.post.
  unfold SessionService.end_session. rewrite !(get_session_key _ _ u Hu).
  destruct (sessions w !! u) as [r|] eqn:Hr; cbn [option_map].
  - destruct r as [st en act]. cbn [is_active of_row row_is_active].
    destruct act; cbn [snd fst DemoSession_methods.end_session].
    + cbn [save sessions session_id]. rewrite lookup_insert_eq.
      cbn [option_map is_active of_row to_row row_is_active fst snd].
      repeat split; eauto.
    + rewrite Hr. cbn [option_map is_active of_row row_is_active fst snd].
      repeat split; eauto; try discriminate.
      intros (r & [= <-] & Hact). discriminate.
  - cbn [fst snd]. rewrite Hr. cbn [option_map fst snd].
    repeat split; eauto; try discriminate.
    intros (r & Hr' & _). discriminate.
Qed.

Section TranscriptFacts.

Context `{UUIDField}.

Lemma rows_of_unknown_session w u :
  Forall (row_ok w) (command_logs w) ->
  sessions w !! u = None ->
  rows_of u w = [].
Proof.
  unfold rows_of. intros Hrows Hu.
  induction Hrows as [|c l Hc Hl IH]; [reflexivity|]. cbn [List.filter].
  unfold CommandLog_objects.of_session at 1. case_bool_decide as E; [|exact IH].
  destruct Hc as [[r Hr] _]. congruence.
Qed.

Lemma rows_of_save u s w : rows_of u (save s w) = rows_of u w.
Proof. reflexivity. Qed.

End TranscriptFacts.

(** X15.  Starting a session through the view answers 201 with the new
    session, active and not ended, when the identifier is free, and the
    transcript of that session is then empty; when the identifier is
    taken the view answers 500 and the store is as before.  (The store is
    any store the requests can produce.) *)
Theorem started_session_is_listed_empty `{UUIDField} `{UUIDStr} ops u now :
  to_python (str_uuid u) = Some u ->
  let w := run empty_world ops in
  let r := StartSessionView.post u now w in
  (sessions w !! u = None ->
   fst r = (StartedBody "Session started successfully"
              {| ser_session_id := u; ser_started_at := now;
                 ser_ended_at := None; ser_is_active := true |}, 201)
   /\ fst (TranscriptView.get (snd r) u)
      = (TranscriptBody
           (Transcript {| tr_session_id := u; tr_started_at := now;
                          tr_ended_at := None; tr_is_active := true;
                          tr_total_commands := 0; tr_commands := [] |}),
         200))
  /\ (sessions w !! u <> None ->
      r = ((FailedBody "Failed to start session", 500), w)).
Proof.
  intros Hu w r. subst r. unfold StartSessionView.post,
    SessionService.create_session, DemoSession_objects.create.
  split.
  - intros Hfree. rewrite Hfree. cbn [fst snd]. split; [reflexivity|].
    unfold TranscriptView.get, TranscriptService.get_session_transcript.
    rewrite (get_session_key _ _ u Hu). cbn [save sessions session_id].
    rewrite lookup_insert_eq. cbn [option_map].
    unfold CommandLog_objects.commands_all.
    cbn [of_row to_row session_id started_at ended_at is_active
           row_started_at row_ended_at row_is_active command_logs save].
    fold (rows_of u w).
    rewrite (rows_of_unknown_session w u); [reflexivity| |exact Hfree].
    apply (run_log_ok ops empty_world empty_world_log_ok).
  - intros Htaken. destruct (sessions w !! u); [reflexivity | congruence].
Qed.

(** X7.  Read your write: after a dispatch that answered 200, the
    transcript of that session holds an entry with the trimmed command and
    the response that was returned, and counts one entry more than
    before. *)
Theorem dispatch_shows_in_transcript `{H : UUIDField} env w sid command resp w' :
  CommandService.process_command env w sid command
    = ((ResponseBody resp, 200), w') ->
  exists before after entry,
    TranscriptService.get_session_transcript w sid
      = ((Transcript before, 200), w)
    /\ TranscriptService.get_session_transcript w' sid
       = ((Transcript after, 200), w')
    /\ In entry (tr_commands after)
    /\ entry_command entry = Py.strip command
    /\ entry_response entry = resp
    /\ tr_total_commands after = tr_total_commands before + 1.
Proof.
  intros Hp.
  destruct (SessionService.get_session w sid) as [[s|]|e] eqn:Hs;
    [|unfold CommandService.process_command in Hp; rewrite Hs in Hp;
      discriminate..].
  destruct (is_active s) eqn:Ha;
    [|unfold CommandService.process_command in Hp; rewrite Hs, Ha in Hp;
      discriminate].
  destruct (decide (Py.strip command = EmptyString)) as [Hc|Hc];
    [rewrite (process_command_empty env _ _ _ _ Hs Ha Hc) in Hp; discriminate|].
  rewrite (process_command_accepted env _ _ _ _ Hs Ha Hc) in Hp.
  cbv zeta in Hp.
  set (r := if Py.startswith "ai:" (Py.lower command)
            then CommandService._handle_ai_command env w command
            else (CommandService._handle_dummy_command env command, w)) in Hp.
  assert (sessions (snd r) = sessions w
          /\ command_logs (snd r) = command_logs w) as [Es El].
  { subst r. destruct (Py.startswith _ _); [apply handle_ai_store | auto]. }
  injection Hp as Hresp Hw'.
  set (row := dispatched_row env w s command (fst (fst r)) (snd (fst r))).
  assert (command_logs w' = command_logs w ++ [row]) as Elog
    by (rewrite <- Hw'; cbn; rewrite El; reflexivity).
  assert (SessionService.get_session w' sid = Ok (Some s)) as Hs'.
  { rewrite <- Hs. unfold SessionService.get_session, DemoSession_objects.get.
    rewrite <- Hw'. cbn [CommandLog_objects.create sessions]. rewrite Es.
    reflexivity. }
  assert (rows_of (session_id s) w' = rows_of (session_id s) w ++ [row]) as Er.
  { unfold rows_of. rewrite Elog, List.filter_app. cbn [List.filter].
    unfold CommandLog_objects.of_session at 2.
    rewrite bool_decide_eq_true_2; reflexivity. }
  unfold TranscriptService.get_session_transcript. rewrite Hs, Hs'.
  eexists _, _, (TranscriptService.entry_of row).
  split; [reflexivity|]. split; [reflexivity|].
  cbn [tr_commands tr_total_commands].
  unfold CommandLog_objects.commands_all.
  fold (rows_of (session_id s) w) (rows_of (session_id s) w').
  split; [|split; [reflexivity|split; [cbn; congruence|]]].
  - apply in_map.
    apply (Permutation_in _ (Permutation_sym (order_by_timestamp_perm _))).
    rewrite Er. apply in_or_app. right. left. reflexivity.
  - rewrite !(Permutation_length (order_by_timestamp_perm _)), Er, length_app.
    cbn [length]. lia.
Qed.

(** ** The admin displays *)

Section AdminFacts.

Lemma slice_to_short n s : (Py.len s <= n)%nat -> Py.slice_to n s = s.
Proof.
  revert n; induction s as [|c t IH]; intros [|n] Hn; cbn in *;
    try reflexivity; try lia.
  rewrite IH; [reflexivity | unfold Py.len; lia].
Qed.

(** The text a preview shows for [s]. *)
Lemma preview_text s :
  let text := if (50 <? Py.len s)%nat then Py.slice_to 50 s +:+ "..."
              else Py.slice_to 50 s in
  (Py.len text <= 53)%nat
  /\ ((Py.len s <= 50)%nat -> text = s)
  /\ ((50 < Py.len s)%nat ->
      text = Py.slice_to 50 s +:+ "..." /\ Py.len text = 53%nat).
Proof.
  cbv zeta. destruct (50 <? Py.len s)%nat eqn:E.
  - apply Nat.ltb_lt in E.
    assert (Py.len (Py.slice_to 50 s +:+ "...") = 53%nat) as Hl.
    { rewrite len_append, len_slice_to.
      change (Py.len "...") with 3%nat. lia. }
    rewrite Hl. repeat split; lia.
  - apply Nat.ltb_ge in E. rewrite (slice_to_short 50 s E).
    repeat split; try lia.
Qed.

Lemma count_non_ai (l : list CommandLog) :
  Z.of_nat (length l) - Z.of_nat (length (List.filter is_ai_response l))
  = Z.of_nat (length (List.filter (fun c => negb (is_ai_response c)) l)).
Proof.
  induction l as [|c l IH]; [reflexivity|]. cbn [List.filter].
  destruct (is_ai_response c); cbn [negb length]; lia.
Qed.

End AdminFacts.

(** X16.  The two previews of the admin list show the whole text when it
    has at most 50 characters, and otherwise its first 50 characters
    followed by three dots: never more than 53 characters.  The full text
    goes into the title attribute. *)
Theorem previews_are_bounded `{Html} obj :
  exists ctext rtext,
    CommandLogAdmin.command_preview obj
      = "<span title=" +:+ Views.dquote +:+ escape (command_text obj)
          +:+ Views.dquote +:+ ">" +:+ escape ctext +:+ "</span>"
    /\ CommandLogAdmin.response_preview obj
       = "<span title=" +:+ Views.dquote +:+ escape (response obj)
           +:+ Views.dquote +:+ ">" +:+ escape rtext +:+ "</span>"
    /\ (Py.len ctext <= 53)%nat /\ (Py.len rtext <= 53)%nat
    /\ ((Py.len (command_text obj) <= 50)%nat -> ctext = command_text obj)
    /\ ((50 < Py.len (command_text obj))%nat ->
        ctext = Py.slice_to 50 (command_text obj) +:+ "...")
    /\ ((Py.len (response obj) <= 50)%nat -> rtext = response obj)
    /\ ((50 < Py.len (response obj))%nat ->
        rtext = Py.slice_to 50 (response obj) +:+ "...").
Proof.
  destruct (preview_text (command_text obj)) as (Hc1 & Hc2 & Hc3).
  destruct (preview_text (response obj)) as (Hr1 & Hr2 & Hr3).
  eexists _, _. split; [reflexivity|]. split; [reflexivity|].
  repeat split; try assumption.
  - intros Hl. apply Hc3, Hl.
  - intros Hl. apply Hr3, Hl.
Qed.

(** X17.  The processing-time column shows [N/A] exactly for a row without
    a measurement or with a measurement of 0 ms; so the row of a dispatch
    whose two clock readings coincide is shown as [N/A]. *)
Theorem zero_time_shows_as_missing `{Html} obj :
  (CommandLogAdmin.processing_time_display obj = "N/A"
   <-> processing_time_ms obj = None \/ processing_time_ms obj = Some 0)
  /\ (forall env w s command resp is_ai,
      time_end env = time_start env ->
      CommandLogAdmin.processing_time_display
        (dispatched_row env w s command resp is_ai) = "N/A").
Proof.
  split.
  - unfold CommandLogAdmin.processing_time_display.
    destruct (processing_time_ms obj) as [n|]; [|split; auto].
    destruct (n =? 0) eqn:E.
    + apply Z.eqb_eq in E. subst n. split; auto.
    + apply Z.eqb_neq in E. split.
      * intros Hd. exfalso. revert Hd.
        generalize (escape (if n <? 1000 then "green"
                            else if n <? 3000 then "orange" else "red")).
        intros color Hd.
        change ("<span style=" +:+ Views.dquote +:+ "color: " +:+ color
                +:+ ";" +:+ Views.dquote +:+ ">" +:+ escape (str_int n)
                +:+ "ms</span>")
          with (String "<" ("span style=" +:+ Views.dquote +:+ "color: "
                  +:+ color +:+ ";" +:+ Views.dquote +:+ ">"
                  +:+ escape (str_int n) +:+ "ms</span>")) in Hd.
        discriminate Hd.
      * intros [Hn|[= Hn]]; [discriminate | congruence].
  - intros env w s command resp is_ai Ht.
    unfold CommandLogAdmin.processing_time_display, dispatched_row.
    cbn [processing_time_ms]. rewrite Ht, Z.sub_diag. reflexivity.
Qed.

(** X18.  In the statistics of a session the number shown as dummy
    responses is the number of the session's rows that are not marked as
    AI-generated: the three numbers shown are the total, the AI rows and
    the other rows. *)
Theorem command_counts_add_up `{Html} w obj :
  let commands := rows_of (session_id obj) w in
  let ai := List.filter is_ai_response commands in
  let other := List.filter (fun c => negb (is_ai_response c)) commands in
  DemoSessionAdmin.command_count_display w obj
  = "<div style=" +:+ Views.dquote +:+ "margin: 10px 0;" +:+ Views.dquote
      +:+ "><strong>Total Commands:</strong> "
      +:+ escape (str_int (Z.of_nat (length commands)))
      +:+ "<br><strong>AI Responses:</strong> "
      +:+ escape (str_int (Z.of_nat (length ai)))
      +:+ "<br><strong>Dummy Responses:</strong> "
      +:+ escape (str_int (Z.of_nat (length other))) +:+ "</div>"
  /\ (length commands = length ai + length other)%nat.
Proof.
  intros commands ai other. unfold DemoSessionAdmin.command_count_display.
  fold (rows_of (session_id obj) w). fold commands. fold ai.
  pose proof (count_non_ai commands) as Hc. fold ai other in Hc.
  rewrite Hc. split; [reflexivity | lia].
Qed.

(** X19.  For a session of any store the requests can produce, the
    duration column never shows [N/A]: an active session shows [Active],
    an ended one the formatted span from its start to its end. *)
Theorem duration_is_never_missing `{UUIDField} `{MinutesFormat} ops sid s :
  SessionService.get_session (run empty_world ops) sid = Ok (Some s) ->
  DemoSessionAdmin.duration_display s <> "N/A"
  /\ ((is_active s = true /\ DemoSessionAdmin.duration_display s = "Active")
      \/ (is_active s = false
          /\ exists ended,
              ended_at s = Some ended
              /\ DemoSessionAdmin.duration_display s
                 = minutes_1f (ended - started_at s) +:+ " minutes")).
Proof.
  intros Hs. apply get_session_found in Hs as (u & r & _ & Hr & ->).
  pose proof (run_ok ops empty_world empty_world_ok u r Hr) as [Hok1 Hok2].
  unfold DemoSessionAdmin.duration_display.
  destruct (ended_at (of_row u r)) as [ended|] eqn:He.
  - split.
    + intros E. apply (f_equal Py.len) in E. rewrite len_append in E.
      change (Py.len " minutes") with 8%nat in E.
      change (Py.len "N/A") with 3%nat in E. lia.
    + right. split; [apply Hok1; discriminate|]. exists ended. auto.
  - destruct (is_active (of_row u r)) eqn:Ha.
    + split; [discriminate | auto].
    + exfalso. apply (Hok2 eq_refl). reflexivity.
Qed.

(** * The further properties at concrete inputs *)

(** X1 on the ended session 1, under two more requests. *)
Lemma ended_is_terminal_witness :
  @SessionService.get_session hex_to_python
    (@run hex_to_python world_ended
       [ProcessCommand (env_with (Completion "pong")) sid1 "hello";
        EndSession 47000000000 sid1;
        CreateSession 1%N 48000000000]) sid1
  = Ok (Some session1_ended).
Proof.
  apply (@ended_is_terminal hex_to_python world_ended sid1 session1_ended);
    reflexivity.
Defined.

(** X3 on the sample run, continued from the store with one session. *)
Lemma log_is_append_only_witness :
  (exists added,
      command_logs (@run hex_to_python world2 sample_ops)
      = command_logs world2 ++ added)
  /\ is_Some (sessions (@run hex_to_python world2 sample_ops) !! 1%N).
Proof.
  destruct (@log_is_append_only hex_to_python sample_ops world2)
    as [Hlog Hgrow].
  split; [exact Hlog|]. apply Hgrow. vm_compute. eauto.
Defined.

(** X4 at the row of the AI command of the sample run. *)
Lemma logged_rows_are_well_formed_witness :
  is_Some (sessions sample_world !! session sample_ai_row)
  /\ command_text sample_ai_row <> EmptyString
  /\ Py.strip (command_text sample_ai_row) = command_text sample_ai_row.
Proof.
  apply (@logged_rows_are_well_formed hex_to_python sample_ops sample_ai_row).
  vm_compute. tauto.
Defined.

(** X5 at the same row. *)
Lemma ai_rows_carry_the_prefix_witness :
  Py.startswith "ai:" (Py.lower (command_text sample_ai_row)) = true.
Proof.
  apply (@ai_rows_carry_the_prefix hex_to_python sample_ops sample_ai_row).
  - vm_compute. tauto.
  - reflexivity.
Defined.


(** X10 at two requests that differ in the session id, on two stores. *)
Lemma ask_ai_answer_ignores_logging_witness :
  fst (@Views.ask_ai hex_to_python (env_with (Completion "pong")) world1
         (request_of "what is here?" "Dashboard" sid1))
  = fst (@Views.ask_ai hex_to_python (env_with (Completion "pong")) world_ended
           (request_of "what is here?" "Dashboard" "test-session-123")).
Proof.
  apply (@ask_ai_answer_ignores_logging hex_to_python); reflexivity.
Defined.

(** X11 at a request that names the active session 1. *)
Lemma ask_ai_logs_the_question_witness :
  let env := env_with (Completion " A dashboard. ") in
  let r := @Views.ask_ai hex_to_python env world1
             (request_of "what time is it?" "Dashboard" sid1) in
  body_response (data (fst r)) = Some "A dashboard."
  /\ map response (command_logs (snd r)) = ["The current time is 12:34:56"]
  /\ map is_ai_response (command_logs (snd r)) = [false].
Proof.
  intros env r.
  destruct (@ask_ai_logs_the_question hex_to_python env world1
              (request_of "what time is it?" "Dashboard" sid1)
              "sk-test" " A dashboard. " session1)
    as (_ & Hbody & Hlog & _).
  - vm_compute. discriminate.
  - reflexivity.
  - reflexivity.
  - vm_compute. discriminate.
  - vm_compute. discriminate.
  - reflexivity.
  - reflexivity.
  - subst r. split; [exact Hbody|]. rewrite Hlog. split; reflexivity.
Defined.

(** X12 at a connection failure, which is none of the four named
    classes. *)
Lemma ask_ai_failures_are_canned_witness :
  let r := @Views.ask_ai hex_to_python
             (env_with (Raises (OtherError "Connection refused"))) world1
             (request_of "what is here?" "Dashboard" sid1) in
  In (fst r)
    [Views.fallback Views.rate_limit_text "Rate limit exceeded" 429;
     Views.fallback Views.invalid_request_text "Invalid request" 400;
     Views.fallback Views.auth_failed_text "Authentication failed" 500;
     Views.fallback Views.api_error_text "API error" 503;
     Views.fallback Views.unexpected_text "Internal server error" 500]
  /\ command_logs (snd r) = command_logs world1.
Proof.
  intros r.
  destruct (@ask_ai_failures_are_canned hex_to_python
              (env_with (Raises (OtherError "Connection refused"))) world1
              (request_of "what is here?" "Dashboard" sid1)
              "sk-test" (OtherError "Connection refused")) as [Hin Hw].
  - vm_compute. discriminate.
  - reflexivity.
  - reflexivity.
  - split; [exact Hin|]. subst r. rewrite Hw. reflexivity.
Defined.

(** X13 at a request whose command has blanks around it, and at one
    without a command. *)
Lemma send_command_delivers_trimmed_witness :
  let env := env_with (Completion "pong") in
  let good := command_data sid1 "  ai: hi  " in
  let bad := {| data_command_session_id := Some "test-session-123";
                data_command := None |} in
  @SendCommandView.post hex_to_python hex_str sample_fields env world1 bad
    = ((InvalidBody "Invalid request data" ["session_id"; "command"], 400),
       world1)
  /\ spec_classify "ai: hi" = ToAI "hi"
  /\ fst (fst (@SendCommandView.post hex_to_python hex_str sample_fields env
                 world1 good))
     <> CommandBody (ErrorBody "Command cannot be empty").
Proof.
  intros env good bad. split; [|split].
  - destruct (@send_command_delivers_trimmed hex_to_python hex_str
                sample_fields env world1 bad) as [Hbad _].
    apply (Hbad ["session_id"; "command"]). reflexivity.
  - destruct (@send_command_delivers_trimmed hex_to_python hex_str
                sample_fields env world1 good) as [_ Hgood].
    destruct (Hgood {| validated_session_id := 1%N;
                       validated_command := "ai: hi" |})
      as (_ & _ & Hspec & _); [reflexivity|].
    exact Hspec.
  - destruct (@send_command_delivers_trimmed hex_to_python hex_str
                sample_fields env world1 good) as [_ Hgood].
    destruct (Hgood {| validated_session_id := 1%N;
                       validated_command := "ai: hi" |})
      as (_ & _ & _ & Hne); [reflexivity|].
    exact Hne.
Defined.

(** X14 on the active session 1. *)
Lemma end_session_view_once_witness :
  let r1 := @EndSessionView.post hex_to_python hex_str 46000000000 world1 1%N in
  let r2 := @EndSessionView.post hex_to_python hex_str 47000000000 (snd r1)
              1%N in
  fst r1 = (MessageBody "Session ended successfully", 200)
  /\ fst r2 = (FailedBody "Session not found or already ended", 404)
  /\ snd r2 = snd r1.
Proof.
  destruct (@end_session_view_once hex_to_python hex_str 46000000000
              47000000000 world1 1%N) as (_ & Hiff & H2 & Hw);
    [reflexivity|].
  split; [|split; assumption].
  apply Hiff. eexists. split; reflexivity.
Defined.

(** X15 with the free identifier 2 and the taken identifier 1, on the
    store of the sample run. *)
Lemma started_session_is_listed_empty_witness :
  fst (@TranscriptView.get hex_to_python hex_str
         (snd (StartSessionView.post 2%N 49000000000 sample_world)) 2%N)
  = (TranscriptBody
       (Transcript {| tr_session_id := 2%N; tr_started_at := 49000000000;
                      tr_ended_at := None; tr_is_active := true;
                      tr_total_commands := 0; tr_commands := [] |}),
     200)
  /\ StartSessionView.post 1%N 49000000000 sample_world
     = ((FailedBody "Failed to start session", 500), sample_world).
Proof.
  split.
  - destruct (@started_session_is_listed_empty hex_to_python hex_str
                sample_ops 2%N 49000000000) as [Hfree _]; [reflexivity|].
    apply Hfree. reflexivity.
  - destruct (@started_session_is_listed_empty hex_to_python hex_str
                sample_ops 1%N 49000000000) as [_ Htaken]; [reflexivity|].
    apply Htaken. vm_compute. discriminate.
Defined.

(** X7 at a command for session 1 after two earlier ones. *)
Lemma dispatch_shows_in_transcript_witness :
  let r := @CommandService.process_command hex_to_python
             (env_later (Completion "pong")) world2 sid1 " I need help " in
  exists before after entry,
    @TranscriptService.get_session_transcript hex_to_python world2 sid1
      = ((Transcript before, 200), world2)
    /\ @TranscriptService.get_session_transcript hex_to_python (snd r) sid1
       = ((Transcript after, 200), snd r)
    /\ In entry (tr_commands after)
    /\ entry_command entry = "I need help"
    /\ entry_response entry = CommandService.help_text
    /\ tr_total_commands after = tr_total_commands before + 1.
Proof.
  intros r.
  apply (@dispatch_shows_in_transcript hex_to_python
           (env_later (Completion "pong")) world2 sid1 " I need help "
           CommandService.help_text (snd r)).
  reflexivity.
Defined.

(** X16 at a row with a command of 60 characters and a short response. *)
Lemma previews_are_bounded_witness :
  let obj := {| log_id := 1; session := 1%N; timestamp := 0;
                command_text :=
                  "0123456789012345678901234567890123456789012345678901234567<9";
                response := "ok"; is_ai_response := false;
                processing_time_ms := Some 12 |} in
  @CommandLogAdmin.command_preview html_escape obj
    = "<span title=" +:+ Views.dquote
        +:+ "0123456789012345678901234567890123456789012345678901234567&lt;9"
        +:+ Views.dquote
        +:+ ">01234567890123456789012345678901234567890123456789...</span>"
  /\ @CommandLogAdmin.response_preview html_escape obj
     = "<span title=" +:+ Views.dquote +:+ "ok" +:+ Views.dquote
         +:+ ">ok</span>".
Proof.
  intros obj.
  destruct (@previews_are_bounded html_escape obj)
    as (ctext & rtext & Ec & Er & _ & _ & _ & Hlong & Hshort & _).
  rewrite Ec, Er, Hlong, Hshort.
  - split; reflexivity.
  - vm_compute. lia.
  - vm_compute. lia.
Defined.

(** X17 at the row of a dispatch whose clock readings coincide. *)
Lemma zero_time_shows_as_missing_witness :
  let row := dispatched_row env_instant world1 session1 "hello"
               CommandService.greeting false in
  processing_time_ms row = Some 0
  /\ @CommandLogAdmin.processing_time_display html_escape row = "N/A".
Proof.
  intros row.
  destruct (@zero_time_shows_as_missing html_escape row) as [Hiff Hinstant].
  split; [reflexivity|].
  apply Hiff. right. reflexivity.
Defined.

(** X19 at the ended session 1 of the sample run. *)
Lemma duration_is_never_missing_witness :
  @DemoSessionAdmin.duration_display sample_minutes_1f session1_ended
  = "16.7 minutes".
Proof.
  destruct (@duration_is_never_missing hex_to_python sample_minutes_1f
              sample_ops sid1 session1_ended) as [_ [[Ha _]|(_ & e & He & Hd)]].
  - reflexivity.
  - discriminate Ha.
  - rewrite Hd. injection He as <-. reflexivity.
Defined.

(** X2 on the ended session 1, after two more requests. *)
Lemma ended_session_is_frozen_witness :
  let w' := @run hex_to_python sample_world
              [ProcessCommand (env_with (Completion "pong")) sid1 "hello";
               AskAi (env_later (Completion "A dashboard."))
                 (request_of "what is here?" "Dashboard" sid1)] in
  @CommandService.process_command hex_to_python (env_with (Completion "pong"))
    w' sid1 "hello" = ((ErrorBody "Session has ended", 400), w')
  /\ rows_of 1%N w' = rows_of 1%N sample_world.
Proof.
  apply (@ended_session_is_frozen hex_to_python sample_world sid1
           session1_ended); reflexivity.
Defined.
